(** * PixelStudios storefront: cart and checkout state of [App.js]

    A shallow embedding of the state-handling code of
    [frontend/src/App.js] (the React component [App]) and the proofs of
    the properties its specification states about it.

    - [JSON]: the values that travel as product options, and
      [JSON.stringify], by which [addToCart] compares them.
    - The data model: products, cart lines, orders, and [AppState], the
      [useState] cells of the component.
    - [Handler]: a small monad for the event handlers.  It threads the
      state the next render will see and the log of effects
      (notifications, console output, HTTP requests), and lets an awaited
      request throw.  A handler is a function of the state of the render
      it was created in: what the source reads from its closure ([cart],
      [customerEmail], ...) is read from that state.
    - The handlers [fetchProducts], [fetchOrders], [addToCart],
      [removeFromCart], [updateQuantity], [getCartTotal],
      [handleCheckout], statement by statement.
    - The facts: [JSON.stringify] is injective; what each cart operation
      does to the cart; what each asynchronous handler does on each outcome
      of its request; and the properties of the specification, C1 to C10.

    Numbers.  JavaScript numbers are binary64 floats.  In the state
    quantities are integers ([Z]) and prices exact rationals ([Q]), the
    "positive integer" and "decimal" of the data model; quantities agree
    with the floats below 2^53.  What [getCartTotal] computes in the
    browser is [getCartTotal_binary64], the same reduce on binary64
    numbers, and the facts about the value of the total are stated of
    it.

    Options.  [json] holds the values of JSON documents, which is what
    the backend sends.  [JS.value] adds [undefined], which
    [handleAddToCart] can put under [style]; [JS.stringify] and
    [JS.addToCart] are the serialiser and the cart operation on those
    values, and agree with [JSON.stringify] and [addToCart] on JSON
    values. *)

From Stdlib Require Import List String Ascii Bool Arith ZArith NArith QArith Lia.
From Stdlib Require Import Decimal DecimalString DecimalPos DecimalZ.
From Stdlib Require Import PrimFloat FloatOps SpecFloat.
Import ListNotations.

Close Scope Q_scope.
Local Open Scope list_scope.
Local Open Scope string_scope.

(* ================================================================== *)
(** * JSON values and [JSON.stringify] *)
(* ================================================================== *)

Module JSON.

#[local] Unset Elimination Schemes.

(** The values of the backend's JSON documents: what [product.options]
    and the style objects inside it are made of.  An object is the list of
    its own properties in enumeration order, which is the order
    [JSON.stringify] prints them in.  Numbers are the integers; strings
    are sequences of code units below 256. *)
Inductive json : Type :=
| JNull
| JBool (b : bool)
| JNum (z : Z)
| JStr (s : string)
| JArr (elems : list json)
| JObj (props : list (string * json)).
#[local] Set Elimination Schemes.

(** The double quote character (code 34). *)
Definition dquote : ascii := "034"%char.

(** One lowercase hexadecimal digit. *)
Definition hex_digit (n : N) : ascii :=
  match n with
  | 0 => "0" | 1 => "1" | 2 => "2" | 3 => "3" | 4 => "4" | 5 => "5"
  | 6 => "6" | 7 => "7" | 8 => "8" | 9 => "9" | 10 => "a" | 11 => "b"
  | 12 => "c" | 13 => "d" | 14 => "e" | _ => "f"
  end%N%char.

(** ECMAScript [UnicodeEscape]: backslash, [u], four lowercase hex
    digits. *)
Definition UnicodeEscape (c : ascii) : string :=
  let n := N_of_ascii c in
  String "\" (String "u" (String "0" (String "0"
    (String (hex_digit (n / 16)) (String (hex_digit (n mod 16)) ""))))).

(** The contribution of one code unit to [QuoteJSONString]: the
    two-character escapes of the table, [UnicodeEscape] for the other
    control characters, the character itself otherwise. *)
Definition quote_char (c : ascii) : string :=
  let n := N_of_ascii c in
  if (n =? 8)%N then "\b"
  else if (n =? 9)%N then "\t"
  else if (n =? 10)%N then "\n"
  else if (n =? 12)%N then "\f"
  else if (n =? 13)%N then "\r"
  else if (n =? 34)%N then String "\" (String dquote "")
  else if (n =? 92)%N then "\\"
  else if (n <? 32)%N then UnicodeEscape c
  else String c "".

(** The quoted characters followed by the closing quote. *)
Fixpoint quote_body (s : string) : string :=
  match s with
  | EmptyString => String dquote ""
  | String c s' => quote_char c ++ quote_body s'
  end.

(** ECMAScript [QuoteJSONString]. *)
Definition QuoteJSONString (s : string) : string :=
  String dquote (quote_body s).

(** [Number::toString] on an integer: decimal digits, a minus sign for a
    negative one.  This is what JavaScript prints for the integers it
    holds below 10^21 in magnitude; the model prints every integer so. *)
Definition Number_toString (z : Z) : string :=
  NilEmpty.string_of_int (Z.to_int z).

(** [JSON.stringify(v)] with no replacer and no indentation: members
    joined by commas, no white space. *)
Fixpoint stringify (v : json) : string :=
  match v with
  | JNull => "null"
  | JBool true => "true"
  | JBool false => "false"
  | JNum z => Number_toString z
  | JStr s => QuoteJSONString s
  | JArr elems => "[" ++ String.concat "," (map stringify elems) ++ "]"
  | JObj props =>
      "{" ++ String.concat ","
               (map (fun kv => QuoteJSONString (fst kv) ++ ":" ++ stringify (snd kv))
                    props) ++ "}"
  end.

(** First value bound to key [k] in a property list. *)
Fixpoint lookup (k : string) (props : list (string * json)) : option json :=
  match props with
  | [] => None
  | (k', v) :: rest => if String.eqb k k' then Some v else lookup k rest
  end.

(** The deep equality the specification compares options by: two values
    are the same data.  Scalars are compared by value, arrays element by
    element, objects as sets of properties (the same keys bound to deeply
    equal values, in whatever order the keys were inserted). *)
Fixpoint deep_equal (x y : json) : bool :=
  match x, y with
  | JNull, JNull => true
  | JBool a, JBool b => Bool.eqb a b
  | JNum a, JNum b => Z.eqb a b
  | JStr a, JStr b => String.eqb a b
  | JArr xs, JArr ys =>
      (fix elems (xs ys : list json) : bool :=
         match xs, ys with
         | [], [] => true
         | a :: xs', b :: ys' => deep_equal a b && elems xs' ys'
         | _, _ => false
         end) xs ys
  | JObj ps, JObj qs =>
      Nat.eqb (List.length ps) (List.length qs) &&
      forallb (fun kv => match lookup (fst kv) qs with
                         | Some w => deep_equal (snd kv) w
                         | None => false
                         end) ps
  | _, _ => false
  end.

(** No key occurs twice in a list of keys. *)
Fixpoint distinct_keys (keys : list string) : bool :=
  match keys with
  | [] => true
  | k :: rest => negb (existsb (String.eqb k) rest) && distinct_keys rest
  end.

(** A value of JavaScript: no object has two properties of the same
    name. *)
Fixpoint well_formed (v : json) : bool :=
  match v with
  | JArr elems => forallb well_formed elems
  | JObj props =>
      distinct_keys (map fst props) &&
      forallb (fun kv => well_formed (snd kv)) props
  | _ => true
  end.

End JSON.

Import JSON.

(* ================================================================== *)
(** * Data model *)
(* ================================================================== *)

(** A product as the backend serves it.  [options] is absent for a
    product that has none. *)
Module Product.
Record t : Type := mk {
  id : string;
  name : string;
  description : string;
  price : Q;
  category : string;
  image_url : string;
  options : option json
}.
End Product.

(** A cart line item, the object literal [addToCart] builds. *)
Module Item.
Record t : Type := mk {
  product_id : string;
  product_name : string;
  quantity : Z;
  price : Q;
  selected_options : json
}.

(** The spread [{ ...item, quantity: q }]. *)
Definition with_quantity (item : t) (q : Z) : t :=
  {| product_id := product_id item;
     product_name := product_name item;
     quantity := q;
     price := price item;
     selected_options := selected_options item |}.
End Item.

(** An order as the backend returns it. *)
Module Order.
Record t : Type := mk {
  id : string;
  customer_email : string;
  customer_note : string;
  items : list Item.t;
  total_amount : Q;
  created_at : string
}.
End Order.

(** The body [handleCheckout] posts. *)
Module OrderData.
Record t : Type := mk {
  customer_email : string;
  customer_note : string;
  items : list Item.t
}.
End OrderData.

(** The argument of [toast]. *)
Module Toast.
Record t : Type := mk {
  title : string;
  description : string;
  variant : option string;
  duration : option Z
}.
End Toast.

(** The [useState] cells of [App]. *)
Record AppState : Type := mkAppState {
  products : list Product.t;
  cart : list Item.t;
  orders : list Order.t;
  isAdminOpen : bool;
  isCartOpen : bool;
  isCheckoutOpen : bool;
  customerEmail : string;
  customerNote : string;
  loading : bool
}.

(** The state of the first render. *)
Definition initialState : AppState :=
  {| products := []; cart := []; orders := [];
     isAdminOpen := false; isCartOpen := false; isCheckoutOpen := false;
     customerEmail := ""; customerNote := ""; loading := false |}.

(** What a handler does besides setting state. *)
Inductive Effect : Type :=
| Notify (t : Toast.t)
| ConsoleError (message : string)
| HttpGet (url : string)
| HttpPost (url : string) (body : OrderData.t).

(** How an awaited request ends: the promise resolves with the response
    data or rejects. *)
Inductive Outcome (A : Type) : Type :=
| Resolved (data : A)
| Rejected.
Arguments Resolved {A} data.
Arguments Rejected {A}.

(** The backend as one handler run meets it: the outcome of each request
    the handler may send. *)
Record Network : Type := mkNetwork {
  GET_products : Outcome (list Product.t);
  GET_orders : Outcome (list Order.t);
  POST_orders : OrderData.t -> Outcome Order.t
}.

(* ================================================================== *)
(** * Handlers: state, effects and exceptions *)
(* ================================================================== *)

(** While a handler runs: the state the next render will see, and the
    effects so far, oldest first. *)
Record World : Type := mkWorld {
  state : AppState;
  effects : list Effect
}.

(** A handler step ends normally with a value or throws; either way it
    leaves a world. *)
Definition Handler (A : Type) : Type := World -> Outcome A * World.

Definition ret {A} (a : A) : Handler A := fun w => (Resolved a, w).

Definition bind {A B} (m : Handler A) (k : A -> Handler B) : Handler B :=
  fun w => match m w with
           | (Resolved a, w') => k a w'
           | (Rejected, w') => (Rejected, w')
           end.

Notation "x <- m ;; k" := (bind m (fun x => k))
  (at level 61, m at next level, right associativity).
Notation "m ;; k" := (bind m (fun _ => k))
  (at level 61, right associativity).

(** [try { body } catch (error) { handler }]. *)
Definition try_catch {A} (body handler : Handler A) : Handler A :=
  fun w => match body w with
           | (Resolved a, w') => (Resolved a, w')
           | (Rejected, w') => handler w'
           end.

(** [try { body } finally { final }]: [final] runs on both exits and the
    body's completion is kept. *)
Definition try_finally {A} (body : Handler A) (final : Handler unit) : Handler A :=
  fun w => match body w with
           | (r, w') => match final w' with
                        | (Resolved _, w'') => (r, w'')
                        | (Rejected, w'') => (Rejected, w'')
                        end
           end.

Definition emit (e : Effect) : Handler unit :=
  fun w => (Resolved tt, {| state := state w; effects := effects w ++ [e] |}).

Definition modify (f : AppState -> AppState) : Handler unit :=
  fun w => (Resolved tt, {| state := f (state w); effects := effects w |}).

Definition toast (t : Toast.t) : Handler unit := emit (Notify t).

Definition console_error (message : string) : Handler unit :=
  emit (ConsoleError message).

(** [await axios.get(url)]: the request goes out, then resolves or
    throws. *)
Definition axios_get {A} (url : string) (reply : Outcome A) : Handler A :=
  fun w => (reply, {| state := state w; effects := effects w ++ [HttpGet url] |}).

(** [await axios.post(url, body)]. *)
Definition axios_post {A} (url : string) (body : OrderData.t)
    (reply : OrderData.t -> Outcome A) : Handler A :=
  fun w => (reply body,
            {| state := state w; effects := effects w ++ [HttpPost url body] |}).

(** The state setters. *)
Definition setProducts (v : list Product.t) : Handler unit :=
  modify (fun s =>
    mkAppState v (cart s) (orders s) (isAdminOpen s) (isCartOpen s)
               (isCheckoutOpen s) (customerEmail s) (customerNote s) (loading s)).

Definition setCart (v : list Item.t) : Handler unit :=
  modify (fun s =>
    mkAppState (products s) v (orders s) (isAdminOpen s) (isCartOpen s)
               (isCheckoutOpen s) (customerEmail s) (customerNote s) (loading s)).

Definition setOrders (v : list Order.t) : Handler unit :=
  modify (fun s =>
    mkAppState (products s) (cart s) v (isAdminOpen s) (isCartOpen s)
               (isCheckoutOpen s) (customerEmail s) (customerNote s) (loading s)).

Definition setIsCheckoutOpen (v : bool) : Handler unit :=
  modify (fun s =>
    mkAppState (products s) (cart s) (orders s) (isAdminOpen s) (isCartOpen s)
               v (customerEmail s) (customerNote s) (loading s)).

Definition setCustomerEmail (v : string) : Handler unit :=
  modify (fun s =>
    mkAppState (products s) (cart s) (orders s) (isAdminOpen s) (isCartOpen s)
               (isCheckoutOpen s) v (customerNote s) (loading s)).

Definition setCustomerNote (v : string) : Handler unit :=
  modify (fun s =>
    mkAppState (products s) (cart s) (orders s) (isAdminOpen s) (isCartOpen s)
               (isCheckoutOpen s) (customerEmail s) v (loading s)).

Definition setLoading (v : bool) : Handler unit :=
  modify (fun s =>
    mkAppState (products s) (cart s) (orders s) (isAdminOpen s) (isCartOpen s)
               (isCheckoutOpen s) (customerEmail s) (customerNote s) v).

(** Run a handler of the render that shows state [s]: the handler closes
    over [s] and its setters start from [s]. *)
Definition dispatch {A} (handler : AppState -> Handler A) (s : AppState)
    : Outcome A * World :=
  handler s {| state := s; effects := [] |}.

(** The state after the handler has run, and what it did. *)
Definition next_state {A} (handler : AppState -> Handler A) (s : AppState) : AppState :=
  state (snd (dispatch handler s)).

Definition effects_of {A} (handler : AppState -> Handler A) (s : AppState) : list Effect :=
  effects (snd (dispatch handler s)).

(* ================================================================== *)
(** * Array methods *)
(* ================================================================== *)

(** [Array.prototype.filter] and [map] hand the callback the element and
    its index. *)
Fixpoint filter_from {A} (f : A -> nat -> bool) (i : nat) (l : list A) : list A :=
  match l with
  | [] => []
  | x :: l' => if f x i then x :: filter_from f (S i) l' else filter_from f (S i) l'
  end.

Definition Array_filter {A} (f : A -> nat -> bool) (l : list A) : list A :=
  filter_from f 0 l.

Fixpoint map_from {A B} (f : A -> nat -> B) (i : nat) (l : list A) : list B :=
  match l with
  | [] => []
  | x :: l' => f x i :: map_from f (S i) l'
  end.

Definition Array_map {A B} (f : A -> nat -> B) (l : list A) : list B :=
  map_from f 0 l.

(** [Array.prototype.reduce] with an initial value. *)
Definition Array_reduce {A B} (f : B -> A -> B) (init : B) (l : list A) : B :=
  fold_left f l init.

(* ================================================================== *)
(** * The handlers of [App] *)
(* ================================================================== *)

Section App.

(** [process.env.REACT_APP_BACKEND_URL]. *)
Variable BACKEND_URL : string.

Definition API : string := BACKEND_URL ++ "/api".

(** The destructive toasts share their variant. *)
Definition destructive : option string := Some "destructive".

Definition fetchProducts (net : Network) (r : AppState) : Handler unit :=
  try_catch
    (response <- axios_get (API ++ "/products") (GET_products net) ;;
     setProducts response)
    (console_error "Error fetching products:" ;;
     toast {| Toast.title := "Error";
              Toast.description := "Failed to load products";
              Toast.variant := destructive;
              Toast.duration := None |}).

Definition fetchOrders (net : Network) (r : AppState) : Handler unit :=
  try_catch
    (response <- axios_get (API ++ "/orders") (GET_orders net) ;;
     setOrders response)
    (console_error "Error fetching orders:" ;;
     toast {| Toast.title := "Error";
              Toast.description := "Failed to load orders";
              Toast.variant := destructive;
              Toast.duration := None |}).

(** The test both callbacks of [addToCart] apply to an item:
    [item.product_id === product.id && JSON.stringify(item.selected_options)
     === JSON.stringify(selectedOptions)]. *)
Definition same_line (product : Product.t) (selectedOptions : json)
    (item : Item.t) : bool :=
  String.eqb (Item.product_id item) (Product.id product) &&
  String.eqb (JSON.stringify (Item.selected_options item))
             (JSON.stringify selectedOptions).

(** [selectedOptions] is [JNull] when the caller passes none. *)
Definition addToCart (product : Product.t) (selectedOptions : json)
    (r : AppState) : Handler unit :=
  let existingItem := find (same_line product selectedOptions) (cart r) in
  match existingItem with
  | Some _ =>
      setCart (map (fun item =>
                      if same_line product selectedOptions item
                      then Item.with_quantity item (Item.quantity item + 1)
                      else item)
                   (cart r))
  | None =>
      setCart (cart r ++
               [ {| Item.product_id := Product.id product;
                    Item.product_name := Product.name product;
                    Item.quantity := 1;
                    Item.price := Product.price product;
                    Item.selected_options := selectedOptions |} ])%list
  end ;;
  toast {| Toast.title := "Added to cart";
           Toast.description :=
             Product.name product ++ " has been added to your cart";
           Toast.variant := None;
           Toast.duration := None |}.

Definition removeFromCart (index : Z) (r : AppState) : Handler unit :=
  setCart (Array_filter (fun _ i => negb (Z.of_nat i =? index)%Z) (cart r)).

Definition updateQuantity (index : Z) (quantity : Z) (r : AppState) : Handler unit :=
  if (quantity =? 0)%Z then removeFromCart index r
  else
    setCart (Array_map (fun item i =>
                          if (Z.of_nat i =? index)%Z
                          then Item.with_quantity item quantity
                          else item)
                       (cart r)).


Definition handleCheckout (net : Network) (r : AppState) : Handler unit :=
  if String.eqb (customerEmail r) "" then
    toast {| Toast.title := "Email required";
             Toast.description := "Please enter your email address";
             Toast.variant := destructive;
             Toast.duration := None |}
  else if Nat.eqb (List.length (cart r)) 0 then
    toast {| Toast.title := "Cart is empty";
             Toast.description := "Please add items to your cart before checkout";
             Toast.variant := destructive;
             Toast.duration := None |}
  else
    setLoading true ;;
    try_finally
      (try_catch
         (let orderData :=
            {| OrderData.customer_email := customerEmail r;
               OrderData.customer_note := customerNote r;
               OrderData.items := cart r |} in
          _ <- axios_post (API ++ "/orders") orderData (POST_orders net) ;;
          setCart [] ;;
          setCustomerEmail "" ;;
          setCustomerNote "" ;;
          setIsCheckoutOpen false ;;
          toast {| Toast.title := "Order placed successfully!";
                   Toast.description :=
                     "We will send you the invoice in your email shortly, and will be in touch with you via email.";
                   Toast.variant := None;
                   Toast.duration := Some 5000%Z |})
         (console_error "Error creating order:" ;;
          toast {| Toast.title := "Error";
                   Toast.description := "Failed to place order. Please try again.";
                   Toast.variant := destructive;
                   Toast.duration := None |}))
      (setLoading false).

End App.

(** What the admin panel shows under its title:
    [orders.length === 0 ? <p>No orders yet</p> : orders.map(...)]. *)
Inductive OrdersView : Type :=
| NoOrdersYet
| OrderCards (cards : list Order.t).

Definition AdminPanel_orders (r : AppState) : OrdersView :=
  match orders r with
  | [] => NoOrdersYet
  | _ :: _ => OrderCards (orders r)
  end.

(* ================================================================== *)
(** * Operation sequences on the cart *)
(* ================================================================== *)

(** The three cart operations with their arguments. *)
Inductive CartOp : Type :=
| OpAdd (product : Product.t) (selectedOptions : json)
| OpRemove (index : Z)
| OpUpdate (index quantity : Z).

Definition perform (op : CartOp) : AppState -> Handler unit :=
  match op with
  | OpAdd product selectedOptions => addToCart product selectedOptions
  | OpRemove index => removeFromCart index
  | OpUpdate index quantity => updateQuantity index quantity
  end.

(** Each operation is fired from the render that shows the state the
    previous one left. *)
Definition run (ops : list CartOp) (s : AppState) : AppState :=
  fold_left (fun s op => next_state (perform op) s) ops s.

(** [n] calls [addToCart(product, selectedOptions)] in a row. *)
Definition add_times (n : nat) (product : Product.t) (selectedOptions : json)
    (s : AppState) : AppState :=
  run (repeat (OpAdd product selectedOptions) n) s.

(* ================================================================== *)
(** * Reading a serialisation back *)
(* ================================================================== *)

(** The definitions of this part serve the proof that [JSON.stringify]
    is injective. *)
Module Decode.

Definition hex_value (c : ascii) : option N :=
  let n := N_of_ascii c in
  if ((48 <=? n) && (n <=? 57))%N then Some (n - 48)%N
  else if ((97 <=? n) && (n <=? 102))%N then Some (n - 87)%N
  else None.

(** Reads back the code unit at the head of a quoted string body; [None]
    at the closing quote. *)
Definition unquote_char (s : string) : option (ascii * string) :=
  match s with
  | EmptyString => None
  | String c rest =>
      if Ascii.eqb c "\" then
        match rest with
        | EmptyString => None
        | String e rest' =>
            if Ascii.eqb e "b" then Some ("008"%char, rest')
            else if Ascii.eqb e "t" then Some ("009"%char, rest')
            else if Ascii.eqb e "n" then Some ("010"%char, rest')
            else if Ascii.eqb e "f" then Some ("012"%char, rest')
            else if Ascii.eqb e "r" then Some ("013"%char, rest')
            else if Ascii.eqb e dquote then Some (dquote, rest')
            else if Ascii.eqb e "\" then Some ("\"%char, rest')
            else
              match rest' with
              | String _ (String _ (String h (String l rest''))) =>
                  match hex_value h, hex_value l with
                  | Some a, Some b => Some (ascii_of_N (16 * a + b), rest'')
                  | _, _ => None
                  end
              | _ => None
              end
        end
      else if Ascii.eqb c dquote then None
      else Some (c, rest)
  end.

(** The kind of value a text starts: 1 null, 2 boolean, 3 number,
    4 string, 5 array, 6 object, 0 none of them. *)
Definition head_kind (s : string) : nat :=
  match s with
  | EmptyString => 0
  | String c _ =>
      if Ascii.eqb c "n" then 1
      else if Ascii.eqb c "t" || Ascii.eqb c "f" then 2
      else if Ascii.eqb c "-" || ((48 <=? N_of_ascii c) && (N_of_ascii c <=? 57))%N then 3
      else if Ascii.eqb c dquote then 4
      else if Ascii.eqb c "[" then 5
      else if Ascii.eqb c "{" then 6
      else 0
  end.

Definition kind (v : json) : nat :=
  match v with
  | JNull => 1
  | JBool _ => 2
  | JNum _ => 3
  | JStr _ => 4
  | JArr _ => 5
  | JObj _ => 6
  end.

(** What may follow a value inside a serialisation: nothing, a comma or
    a closing bracket. *)
Definition delimited (r : string) : bool :=
  match r with
  | EmptyString => true
  | String c _ => Ascii.eqb c "," || Ascii.eqb c "]" || Ascii.eqb c "}"
  end.

(** The members of an array or object from some member on, with the
    closing bracket and what follows it. *)
Fixpoint members {A} (f : A -> string) (close : ascii) (l : list A) (r : string)
    : string :=
  match l with
  | [] => String close r
  | x :: l' =>
      f x ++ match l' with
             | [] => members f close l' r
             | _ :: _ => String "," (members f close l' r)
             end
  end.

(** One property of an object as [JSON.stringify] prints it. *)
Definition property (kv : string * json) : string :=
  QuoteJSONString (fst kv) ++ ":" ++ stringify (snd kv).

End Decode.

(** The scenario of the specification in binary64, the arithmetic the
    browser uses. *)
Definition getCartTotal_binary64 (lines : list (float * float)) : float :=
  Array_reduce (fun total line => (total + fst line * snd line)%float) 0%float lines.

(* ================================================================== *)
(** * Vocabulary of the specification *)
(* ================================================================== *)

(** The line [addToCart] appends for a product and options, carrying
    quantity [q]. *)
Definition line_of (product : Product.t) (selectedOptions : json) (q : Z) : Item.t :=
  {| Item.product_id := Product.id product;
     Item.product_name := Product.name product;
     Item.quantity := q;
     Item.price := Product.price product;
     Item.selected_options := selectedOptions |}.

(** The callback of the [map] in [addToCart]. *)
Definition bump (product : Product.t) (selectedOptions : json) (item : Item.t) : Item.t :=
  if same_line product selectedOptions item
  then Item.with_quantity item (Item.quantity item + 1)
  else item.


(** Two lines for the same product whose options have the same JSON
    text. *)
Definition same_text (a b : Item.t) : bool :=
  String.eqb (Item.product_id a) (Item.product_id b) &&
  String.eqb (stringify (Item.selected_options a)) (stringify (Item.selected_options b)).




(** The requests among the effects of a handler. *)
Definition is_request (e : Effect) : bool :=
  match e with
  | HttpGet _ | HttpPost _ _ => true
  | Notify _ | ConsoleError _ => false
  end.

Definition network_calls (es : list Effect) : nat :=
  List.length (filter is_request es).

(** The notifications among the effects, oldest first. *)
Fixpoint notifications (es : list Effect) : list Toast.t :=
  match es with
  | [] => []
  | Notify t :: es' => t :: notifications es'
  | _ :: es' => notifications es'
  end.

(** The toasts of the handlers, by name. *)
Definition toast_email_required : Toast.t :=
  {| Toast.title := "Email required";
     Toast.description := "Please enter your email address";
     Toast.variant := destructive;
     Toast.duration := None |}.

Definition toast_cart_empty : Toast.t :=
  {| Toast.title := "Cart is empty";
     Toast.description := "Please add items to your cart before checkout";
     Toast.variant := destructive;
     Toast.duration := None |}.

Definition toast_order_placed : Toast.t :=
  {| Toast.title := "Order placed successfully!";
     Toast.description :=
       "We will send you the invoice in your email shortly, and will be in touch with you via email.";
     Toast.variant := None;
     Toast.duration := Some 5000%Z |}.

Definition toast_order_failed : Toast.t :=
  {| Toast.title := "Error";
     Toast.description := "Failed to place order. Please try again.";
     Toast.variant := destructive;
     Toast.duration := None |}.

Definition toast_products_failed : Toast.t :=
  {| Toast.title := "Error";
     Toast.description := "Failed to load products";
     Toast.variant := destructive;
     Toast.duration := None |}.

Definition toast_orders_failed : Toast.t :=
  {| Toast.title := "Error";
     Toast.description := "Failed to load orders";
     Toast.variant := destructive;
     Toast.duration := None |}.

(** The body [handleCheckout] posts from state [r]. *)
Definition orderData_of (r : AppState) : OrderData.t :=
  {| OrderData.customer_email := customerEmail r;
     OrderData.customer_note := customerNote r;
     OrderData.items := cart r |}.

(** State [r] with [loading] set to [v], as [setLoading(v)] leaves it. *)
Definition with_loading (v : bool) (r : AppState) : AppState :=
  mkAppState (products r) (cart r) (orders r) (isAdminOpen r) (isCartOpen r)
             (isCheckoutOpen r) (customerEmail r) (customerNote r) v.

(** ** Sample data *)

Definition productA : Product.t :=
  Product.mk "A" "Product A" "First product" 10%Q "design" "a.png" None.

Definition productB : Product.t :=
  Product.mk "B" "Product B" "Second product" 5.5%Q "course" "b.png" None.

(** The options [{style: "X"}]. *)
Definition style_X : json := JObj [("style", JStr "X")].

(** One art style, written with its two properties in either order. *)
Definition watercolor : json :=
  JObj [("style", JObj [("name", JStr "Watercolor"); ("description", JStr "Soft washes")])].

Definition watercolor_reordered : json :=
  JObj [("style", JObj [("description", JStr "Soft washes"); ("name", JStr "Watercolor")])].

Definition sample_order : Order.t :=
  Order.mk "order-0001" "ann@example.com" "" [line_of productA JNull 2] 20%Q
           "2025-01-01T00:00:00Z".

(** A backend that fails every request. *)
Definition offline : Network :=
  {| GET_products := Rejected; GET_orders := Rejected;
     POST_orders := fun _ => Rejected |}.

(** A backend that accepts every order. *)
Definition online : Network :=
  {| GET_products := Resolved [productA; productB];
     GET_orders := Resolved [sample_order];
     POST_orders := fun body =>
       Resolved (Order.mk "order-0002" (OrderData.customer_email body)
                          (OrderData.customer_note body) (OrderData.items body)
                          0%Q "2025-01-02T00:00:00Z") |}.

(** A state in the middle of a checkout: two lines in the cart, the form
    filled in, one order already listed. *)
Definition checkout_state : AppState :=
  {| products := [productA; productB];
     cart := [line_of productA JNull 2; line_of productB JNull 1];
     orders := [sample_order];
     isAdminOpen := false; isCartOpen := false; isCheckoutOpen := true;
     customerEmail := "ann@example.com"; customerNote := "gift";
     loading := false |}.

(* ================================================================== *)
(** * The handlers inside the components *)
(* ================================================================== *)

Definition setIsAdminOpen (v : bool) : Handler unit :=
  modify (fun s =>
    mkAppState (products s) (cart s) (orders s) v (isCartOpen s)
               (isCheckoutOpen s) (customerEmail s) (customerNote s) (loading s)).

Definition setIsCartOpen (v : bool) : Handler unit :=
  modify (fun s =>
    mkAppState (products s) (cart s) (orders s) (isAdminOpen s) v
               (isCheckoutOpen s) (customerEmail s) (customerNote s) (loading s)).

(** A handler that throws (a [TypeError] of the runtime) and leaves the
    world as it is. *)
Definition throw {A} : Handler A := fun w => (Rejected, w).

(** ** Reading JSON values as JavaScript does *)

(** The truth value of a JSON value in a condition. *)
Definition truthy (v : json) : bool :=
  match v with
  | JNull => false
  | JBool b => b
  | JNum z => negb (z =? 0)%Z
  | JStr s => negb (String.eqb s "")
  | JArr _ | JObj _ => true
  end.

(** [v.key] for a value [v] that is not [null], for the keys read in this
    file ([styles], [name]): an object gives its property of that name,
    every other value gives [undefined] ([None]). *)
Definition member (key : string) (v : json) : option json :=
  match v with
  | JObj props => lookup key props
  | _ => None
  end.

(** [v?.key]: [undefined] for [undefined] and for [null]. *)
Definition optional_member (key : string) (v : option json) : option json :=
  match v with
  | None | Some JNull => None
  | Some v' => member key v'
  end.

(** The callback [s => s.name === selectedStyle]; reading [name] from
    [null] throws. *)
Definition names_style (selectedStyle : string) (s : json) : Outcome bool :=
  match s with
  | JNull => Rejected
  | _ => match member "name" s with
         | Some (JStr n) => Resolved (String.eqb n selectedStyle)
         | _ => Resolved false
         end
  end.

(** [styles.find(s => s.name === selectedStyle)]: the first element the
    callback accepts, [undefined] when there is none; a throwing callback
    ends the search. *)
Fixpoint find_style (selectedStyle : string) (styles : list json)
    : Outcome (option json) :=
  match styles with
  | [] => Resolved None
  | s :: rest =>
      match names_style selectedStyle s with
      | Rejected => Rejected
      | Resolved true => Resolved (Some s)
      | Resolved false => find_style selectedStyle rest
      end
  end.

(** [product.options?.styles?.find(s => s.name === selectedStyle)].  Only
    an array has a [find] to call. *)
Definition chosen_style (product : Product.t) (selectedStyle : string)
    : Outcome (option json) :=
  match optional_member "styles" (Product.options product) with
  | None | Some JNull => Resolved None
  | Some (JArr styles) => find_style selectedStyle styles
  | Some _ => Rejected
  end.

(** ** [ProductCard] *)

(** [handleAddToCart] of the card of [product] whose select shows
    [selectedStyle] (the empty string until a style is chosen).  When the
    search finds no style the source passes [{ style: undefined }], an
    object [JSON.stringify] prints as the empty object and whose [style]
    reads as [undefined]; it is the empty object here. *)
Definition handleAddToCart (product : Product.t) (selectedStyle : string)
    (r : AppState) : Handler unit :=
  if String.eqb (Product.category product) "art" && negb (String.eqb selectedStyle "")
  then
    match chosen_style product selectedStyle with
    | Rejected => throw
    | Resolved (Some style) => addToCart product (JObj [("style", style)]) r
    | Resolved None => addToCart product (JObj []) r
    end
  else
    match Product.options product with
    | Some o => if truthy o then addToCart product o r else addToCart product JNull r
    | None => addToCart product JNull r
    end.

(** ** [CartDrawer] *)

(** The [-] button of the line at [index]:
    [updateQuantity(index, item.quantity - 1)].  The drawer renders the
    buttons once per line, so there is none past the end of the cart. *)
Definition CartDrawer_minus (index : nat) (r : AppState) : Handler unit :=
  match nth_error (cart r) index with
  | Some item => updateQuantity (Z.of_nat index) (Item.quantity item - 1) r
  | None => ret tt
  end.

(** The [+] button: [updateQuantity(index, item.quantity + 1)]. *)
Definition CartDrawer_plus (index : nat) (r : AppState) : Handler unit :=
  match nth_error (cart r) index with
  | Some item => updateQuantity (Z.of_nat index) (Item.quantity item + 1) r
  | None => ret tt
  end.

(** ** [AdminPanel] *)

Section Admin.
Variable BACKEND_URL : string.

(** [onOpenChange] of the dialog: [setIsAdminOpen(open); if (open)
    fetchOrders();]. *)
Definition AdminPanel_onOpenChange (net : Network) (open : bool)
    (r : AppState) : Handler unit :=
  setIsAdminOpen open ;;
  if open then fetchOrders BACKEND_URL net r else ret tt.

End Admin.

(** The title of an order card shows [order.id.slice(-8)]: the text from
    eight code units before the end, or from the start of a shorter
    one. *)
Definition slice_last (n : nat) (s : string) : string :=
  substring (String.length s - n) n s.

Definition order_title_id (order : Order.t) : string :=
  slice_last 8 (Order.id order).

(** ** Clicks on the storefront *)

(** What a visitor does to the cart: add a product with the options its
    card passes, or press [+] or [-] on a line of the drawer. *)
Inductive Click : Type :=
| ClickAdd (product : Product.t) (selectedOptions : json)
| ClickPlus (index : nat)
| ClickMinus (index : nat).

Definition on_click (c : Click) : AppState -> Handler unit :=
  match c with
  | ClickAdd product selectedOptions => addToCart product selectedOptions
  | ClickPlus index => CartDrawer_plus index
  | ClickMinus index => CartDrawer_minus index
  end.

Definition clicks (cs : list Click) (s : AppState) : AppState :=
  fold_left (fun s c => next_state (on_click c) s) cs s.

(** The requests among the effects, oldest first. *)
Definition requests (es : list Effect) : list Effect := filter is_request es.

(** Whether [handleCheckout] goes on to submit from state [r]. *)
Definition guards_pass_b (r : AppState) : bool :=
  negb (String.eqb (customerEmail r) "") && negb (Nat.eqb (List.length (cart r)) 0).

(** An art product with two styles, and a product that is not art. *)
Definition style_ink : json :=
  JObj [("name", JStr "Ink"); ("description", JStr "Bold lines")].

Definition style_oil : json :=
  JObj [("name", JStr "Oil"); ("description", JStr "Rich colour")].

Definition productArt : Product.t :=
  Product.mk "C" "Portrait" "Custom portrait" 40%Q "art" "c.png"
             (Some (JObj [("styles", JArr [style_ink; style_oil])])).

(* ================================================================== *)
(** * JavaScript values: JSON values and [undefined] *)
(* ================================================================== *)

(** [handleAddToCart] can pass [{ style: undefined }], a value no JSON
    document holds.  This part embeds [JSON.stringify] and [addToCart] on
    the values of JavaScript that can reach them: the JSON values and
    [undefined], alone or inside arrays and objects. *)
Module JS.

#[local] Unset Elimination Schemes.

Inductive value : Type :=
| VUndefined
| VNull
| VBool (b : bool)
| VNum (z : Z)
| VStr (s : string)
| VArr (elems : list value)
| VObj (props : list (string * value)).

#[local] Set Elimination Schemes.

(** A JSON value as a value of JavaScript. *)
Fixpoint of_json (j : json) : value :=
  match j with
  | JNull => VNull
  | JBool b => VBool b
  | JNum z => VNum z
  | JStr s => VStr s
  | JArr elems => VArr (map of_json elems)
  | JObj props => VObj (map (fun kv => (fst kv, of_json (snd kv))) props)
  end.

(** [JSON.stringify(v)]; [None] is the result [undefined].  An
    [undefined] element of an array prints as [null]; a property whose
    value is [undefined] is left out. *)
Fixpoint stringify (v : value) : option string :=
  match v with
  | VUndefined => None
  | VNull => Some "null"
  | VBool true => Some "true"
  | VBool false => Some "false"
  | VNum z => Some (Number_toString z)
  | VStr s => Some (QuoteJSONString s)
  | VArr elems =>
      Some ("[" ++ String.concat ","
                     (map (fun x => match stringify x with
                                    | Some t => t
                                    | None => "null"
                                    end) elems) ++ "]")
  | VObj props =>
      Some ("{" ++ String.concat ","
                     (flat_map (fun kv => match stringify (snd kv) with
                                          | Some t => [QuoteJSONString (fst kv) ++ ":" ++ t]
                                          | None => []
                                          end) props) ++ "}")
  end.

(** The JSON value [JSON.stringify] prints for [v], when it prints
    one. *)
Fixpoint to_json (v : value) : option json :=
  match v with
  | VUndefined => None
  | VNull => Some JNull
  | VBool b => Some (JBool b)
  | VNum z => Some (JNum z)
  | VStr s => Some (JStr s)
  | VArr elems =>
      Some (JArr (map (fun x => match to_json x with
                                | Some j => j
                                | None => JNull
                                end) elems))
  | VObj props =>
      Some (JObj (flat_map (fun kv => match to_json (snd kv) with
                                      | Some j => [(fst kv, j)]
                                      | None => []
                                      end) props))
  end.

(** [a === b] for two results of [JSON.stringify]. *)
Definition same_text (a b : option string) : bool :=
  match a, b with
  | Some x, Some y => String.eqb x y
  | None, None => true
  | _, _ => false
  end.

(** First value bound to key [k]. *)
Fixpoint lookup (k : string) (props : list (string * value)) : option value :=
  match props with
  | [] => None
  | (k', v) :: rest => if String.eqb k k' then Some v else lookup k rest
  end.

(** Deep equality of two values as data, [undefined] being equal to
    itself only: scalars by value, arrays element by element, objects as
    sets of properties. *)
Fixpoint deep_equal (x y : value) : bool :=
  match x, y with
  | VUndefined, VUndefined => true
  | VNull, VNull => true
  | VBool a, VBool b => Bool.eqb a b
  | VNum a, VNum b => Z.eqb a b
  | VStr a, VStr b => String.eqb a b
  | VArr xs, VArr ys =>
      (fix elems (xs ys : list value) : bool :=
         match xs, ys with
         | [], [] => true
         | a :: xs', b :: ys' => deep_equal a b && elems xs' ys'
         | _, _ => false
         end) xs ys
  | VObj ps, VObj qs =>
      Nat.eqb (List.length ps) (List.length qs) &&
      forallb (fun kv => match lookup (fst kv) qs with
                         | Some w => deep_equal (snd kv) w
                         | None => false
                         end) ps
  | _, _ => false
  end.

(** A cart line whose options are any value. *)
Module Line.
Record t : Type := mk {
  product_id : string;
  product_name : string;
  quantity : Z;
  price : Q;
  selected_options : value
}.

(** The spread [{ ...item, quantity: q }]. *)
Definition with_quantity (item : t) (q : Z) : t :=
  {| product_id := product_id item;
     product_name := product_name item;
     quantity := q;
     price := price item;
     selected_options := selected_options item |}.
End Line.

(** The default of the parameter: [selectedOptions = null]. *)
Definition default_null (selectedOptions : value) : value :=
  match selectedOptions with
  | VUndefined => VNull
  | v => v
  end.

Definition same_line (product : Product.t) (selectedOptions : value)
    (item : Line.t) : bool :=
  String.eqb (Line.product_id item) (Product.id product) &&
  same_text (stringify (Line.selected_options item)) (stringify selectedOptions).

(** [addToCart] with the cart passed in and the argument of [setCart]
    passed out, beside the toast. *)
Definition addToCart (product : Product.t) (selectedOptions : value)
    (cart : list Line.t) : list Line.t * Toast.t :=
  let selectedOptions := default_null selectedOptions in
  let existingItem := find (same_line product selectedOptions) cart in
  (match existingItem with
   | Some _ =>
       map (fun item =>
              if same_line product selectedOptions item
              then Line.with_quantity item (Line.quantity item + 1)
              else item)
           cart
   | None =>
       (cart ++
        [ {| Line.product_id := Product.id product;
             Line.product_name := Product.name product;
             Line.quantity := 1;
             Line.price := Product.price product;
             Line.selected_options := selectedOptions |} ])%list
   end,
   {| Toast.title := "Added to cart";
      Toast.description :=
        Product.name product ++ " has been added to your cart";
      Toast.variant := None;
      Toast.duration := None |}).

(** The line [addToCart] appends. *)
Definition line_of (product : Product.t) (selectedOptions : value) (q : Z) : Line.t :=
  {| Line.product_id := Product.id product;
     Line.product_name := Product.name product;
     Line.quantity := q;
     Line.price := Product.price product;
     Line.selected_options := selectedOptions |}.

(** A line of the JSON cart as a line of this one. *)
Definition of_item (item : Item.t) : Line.t :=
  {| Line.product_id := Item.product_id item;
     Line.product_name := Item.product_name item;
     Line.quantity := Item.quantity item;
     Line.price := Item.price item;
     Line.selected_options := of_json (Item.selected_options item) |}.

(** What the claim about two calls promises: two distinct lines, each
    with quantity one. *)
Definition two_lines_of_one (cart : list Line.t) : Prop :=
  exists a b, cart = [a; b] /\ a <> b /\
              Line.quantity a = 1%Z /\ Line.quantity b = 1%Z.

(** [{ style: undefined }], as [handleAddToCart] builds it when the
    search finds no style, and the empty object. *)
Definition style_undefined : value := VObj [("style", VUndefined)].

Definition empty_object : value := VObj [].

End JS.

(* ================================================================== *)
(** * The total in binary64 *)
(* ================================================================== *)

(** The rational number a finite binary64 value stands for; 0 for NaN and
    the infinities, which [exact_steps] rules out. *)
Definition float_value (x : float) : Q :=
  match Prim2SF x with
  | S754_finite s m e =>
      ((if s then -1 else 1) * inject_Z (Zpos m) * Qpower 2 e)%Q
  | _ => 0%Q
  end.

(** The sum of the specification over the prices and quantities the
    lines hold: unit price times quantity, added up exactly. *)
Fixpoint exact_sum (lines : list (float * float)) : Q :=
  match lines with
  | [] => 0%Q
  | line :: rest =>
      (float_value (fst line) * float_value (snd line) + exact_sum rest)%Q
  end.

(** No multiplication and no addition of the reduce, continued from the
    accumulator [total] over [lines], rounds or overflows. *)
Fixpoint exact_steps (total : float) (lines : list (float * float)) : bool :=
  match lines with
  | [] => true
  | line :: rest =>
      let amount := (fst line * snd line)%float in
      is_finite amount &&
      Qeq_bool (float_value amount) (float_value (fst line) * float_value (snd line)) &&
      is_finite (total + amount)%float &&
      Qeq_bool (float_value (total + amount)%float)
               (float_value total + float_value amount) &&
      exact_steps (total + amount)%float rest
  end.

(** The number JavaScript reads [0.1] as: the binary64 value nearest to
    one tenth. *)
Definition one_tenth : float := 0x1.999999999999ap-4%float.

(** Likewise [0.2] and [0.3]. *)
Definition two_tenths : float := 0x1.999999999999ap-3%float.

Definition three_tenths : float := 0x1.3333333333333p-2%float.

(* ================================================================== *)
(** * [JSON.stringify] is injective *)
(* ================================================================== *)

Module JSONFacts.
Import Decode.

(** Induction on a value with the hypothesis for every element of an
    array and every property value of an object. *)
Lemma json_ind (P : json -> Prop)
    (HNull : P JNull)
    (HBool : forall b, P (JBool b))
    (HNum : forall z, P (JNum z))
    (HStr : forall s, P (JStr s))
    (HArr : forall elems, Forall P elems -> P (JArr elems))
    (HObj : forall props, Forall (fun kv => P (snd kv)) props -> P (JObj props)) :
  forall v, P v.
Proof.
  fix IH 1.
  intros [ | b | z | s | elems | props ].
  - exact HNull.
  - apply HBool.
  - apply HNum.
  - apply HStr.
  - apply HArr. induction elems as [ | x elems IHelems ]; constructor.
    + apply IH.
    + exact IHelems.
  - apply HObj. induction props as [ | [k x] props IHprops ]; constructor.
    + apply IH.
    + exact IHprops.
Qed.

Lemma append_assoc (a b c : string) : (a ++ b) ++ c = a ++ (b ++ c).
Proof. induction a as [ | x a IHa ]; simpl; [ reflexivity | now rewrite IHa ]. Qed.

Lemma append_empty_r (a : string) : a ++ "" = a.
Proof. induction a as [ | x a IHa ]; simpl; [ reflexivity | now rewrite IHa ]. Qed.

(** ** Strings *)

Lemma unquote_quote_char (c : ascii) (r : string) :
  unquote_char (quote_char c ++ r) = Some (c, r).
Proof.
  destruct c as [[|] [|] [|] [|] [|] [|] [|] [|]]; reflexivity.
Qed.

Lemma unquote_closing (r : string) : unquote_char (String dquote r) = None.
Proof. reflexivity. Qed.

Lemma quote_body_inj (s1 : string) :
  forall s2 r1 r2,
    quote_body s1 ++ r1 = quote_body s2 ++ r2 -> s1 = s2 /\ r1 = r2.
Proof.
  induction s1 as [ | c1 s1 IH ]; intros [ | c2 s2 ] r1 r2 H; simpl in H.
  - injection H as ->. now split.
  - rewrite append_assoc in H. apply (f_equal unquote_char) in H.
    rewrite unquote_quote_char in H. discriminate H.
  - rewrite append_assoc in H. apply (f_equal unquote_char) in H.
    rewrite unquote_quote_char in H. discriminate H.
  - rewrite !append_assoc in H. apply (f_equal unquote_char) in H.
    rewrite !unquote_quote_char in H. injection H as -> H.
    destruct (IH _ _ _ H) as [-> ->]. now split.
Qed.

Lemma QuoteJSONString_inj (s1 s2 r1 r2 : string) :
  QuoteJSONString s1 ++ r1 = QuoteJSONString s2 ++ r2 -> s1 = s2 /\ r1 = r2.
Proof.
  unfold QuoteJSONString. simpl. intros H. injection H as H.
  now apply quote_body_inj.
Qed.

(** ** Numbers *)

Lemma delimited_head_kind (r : string) : delimited r = true -> head_kind r = 0.
Proof.
  destruct r as [ | c r ]; [ reflexivity | ]. simpl. intros H.
  apply orb_true_iff in H. destruct H as [H | H].
  - apply orb_true_iff in H. destruct H as [H | H];
      apply Ascii.eqb_eq in H; subst c; reflexivity.
  - apply Ascii.eqb_eq in H; subst c; reflexivity.
Qed.

Lemma head_kind_digits (u : uint) (r : string) :
  u <> Nil -> head_kind (NilEmpty.string_of_uint u ++ r) = 3.
Proof. destruct u; intros H; [ contradiction | reflexivity .. ]. Qed.

Lemma head_kind_Number (z : Z) (r : string) :
  head_kind (Number_toString z ++ r) = 3.
Proof.
  unfold Number_toString. destruct z as [ | p | p ]; simpl.
  - reflexivity.
  - apply head_kind_digits, Unsigned.to_uint_nonnil.
  - reflexivity.
Qed.

Lemma digits_inj (u1 : uint) :
  forall u2 r1 r2,
    delimited r1 = true -> delimited r2 = true ->
    NilEmpty.string_of_uint u1 ++ r1 = NilEmpty.string_of_uint u2 ++ r2 ->
    u1 = u2 /\ r1 = r2.
Proof.
  induction u1 as [ | u1 IH | u1 IH | u1 IH | u1 IH | u1 IH
                    | u1 IH | u1 IH | u1 IH | u1 IH | u1 IH ];
    intros [ | u2 | u2 | u2 | u2 | u2 | u2 | u2 | u2 | u2 | u2 ] r1 r2 D1 D2 H;
    simpl in H;
    try (subst; simpl in *; discriminate);
    try (injection H as H; destruct (IH _ _ _ D1 D2 H) as [-> ->]);
    now split.
Qed.

Lemma Number_toString_inj (z1 z2 : Z) (r1 r2 : string) :
  delimited r1 = true -> delimited r2 = true ->
  Number_toString z1 ++ r1 = Number_toString z2 ++ r2 -> z1 = z2 /\ r1 = r2.
Proof.
  intros D1 D2 H. unfold Number_toString in H.
  destruct (Z.to_int z1) as [u1 | u1] eqn:E1, (Z.to_int z2) as [u2 | u2] eqn:E2;
    simpl in H.
  - destruct (digits_inj _ _ _ _ D1 D2 H) as [-> ->]. split; [ | reflexivity ].
    apply DecimalZ.to_int_inj. congruence.
  - exfalso. destruct u1; simpl in H; try discriminate H.
    subst r1. discriminate D1.
  - exfalso. destruct u2; simpl in H; try discriminate H.
    subst r2. discriminate D2.
  - injection H as H.
    destruct (digits_inj _ _ _ _ D1 D2 H) as [-> ->]. split; [ | reflexivity ].
    apply DecimalZ.to_int_inj. congruence.
Qed.

(** ** Members of arrays and objects *)

Section Members.
Context {A : Type} (f : A -> string) (close : ascii).
Hypothesis close_delimits : forall r, delimited (String close r) = true.
Hypothesis close_not_comma : close <> ","%char.
Hypothesis member_head : forall x r, head_kind (f x ++ r) <> 0.

Lemma concat_members (l : list A) (r : string) :
  String.concat "," (map f l) ++ String close r = members f close l r.
Proof.
  induction l as [ | x l IH ]; [ reflexivity | ].
  destruct l as [ | y l ]; [ reflexivity | ].
  change (String.concat "," (map f (x :: y :: l)))
    with (f x ++ "," ++ String.concat "," (map f (y :: l))).
  rewrite !append_assoc. simpl. f_equal. f_equal. exact IH.
Qed.

Lemma members_delimited (l : list A) (r : string) :
  delimited match l with
            | [] => members f close l r
            | _ :: _ => String "," (members f close l r)
            end = true.
Proof. destruct l; [ apply close_delimits | reflexivity ]. Qed.

Lemma members_inj (l1 : list A) :
  Forall (fun x => forall y r r',
            delimited r = true -> delimited r' = true ->
            f x ++ r = f y ++ r' -> x = y /\ r = r') l1 ->
  forall l2 r1 r2,
    members f close l1 r1 = members f close l2 r2 -> l1 = l2 /\ r1 = r2.
Proof.
  induction 1 as [ | x l1 Hx _ IH ]; intros [ | y l2 ] r1 r2 H;
    cbn [members] in H.
  - injection H as ->. now split.
  - exfalso. apply (f_equal head_kind) in H.
    rewrite (delimited_head_kind _ (close_delimits r1)) in H.
    symmetry in H. exact (member_head _ _ H).
  - exfalso. apply (f_equal head_kind) in H.
    rewrite (delimited_head_kind _ (close_delimits r2)) in H.
    exact (member_head _ _ H).
  - destruct (Hx _ _ _ (members_delimited l1 r1) (members_delimited l2 r2) H)
      as [-> T].
    destruct l1 as [ | a l1 ], l2 as [ | b l2 ]; cbv beta iota in T.
    + cbn [members] in T. injection T as ->. now split.
    + exfalso. cbn [members] in T. injection T as T _. exact (close_not_comma T).
    + exfalso. cbn [members] in T. injection T as T _.
      exact (close_not_comma (eq_sym T)).
    + injection T as T. destruct (IH (b :: l2) r1 r2 T) as [E ->].
      rewrite E. now split.
Qed.

End Members.

(** ** Values *)

Lemma head_kind_stringify (v : json) (r : string) :
  head_kind (stringify v ++ r) = kind v.
Proof.
  destruct v as [ | [ | ] | z | s | elems | props ]; try reflexivity.
  apply head_kind_Number.
Qed.

Lemma head_kind_property (kv : string * json) (r : string) :
  head_kind (property kv ++ r) <> 0.
Proof. discriminate. Qed.

Lemma stringify_members (elems : list json) (r : string) :
  stringify (JArr elems) ++ r = String "[" (members stringify "]" elems r).
Proof.
  cbn [stringify]. rewrite <- concat_members. cbn.
  now rewrite append_assoc.
Qed.

Lemma stringify_properties (props : list (string * json)) (r : string) :
  stringify (JObj props) ++ r = String "{" (members property "}" props r).
Proof.
  cbn [stringify]. rewrite <- concat_members. cbn.
  now rewrite append_assoc.
Qed.

(** Two serialisations, each followed by a delimiter, that agree as texts
    are serialisations of the same value followed by the same rest. *)
Lemma stringify_inj_delimited (v1 : json) :
  forall v2 r1 r2,
    delimited r1 = true -> delimited r2 = true ->
    stringify v1 ++ r1 = stringify v2 ++ r2 -> v1 = v2 /\ r1 = r2.
Proof.
  induction v1 as [ | b1 | z1 | s1 | elems1 IH | props1 IH ] using json_ind;
    intros v2 r1 r2 D1 D2 H;
    pose proof (f_equal head_kind H) as K;
    rewrite !head_kind_stringify in K;
    destruct v2 as [ | b2 | z2 | s2 | elems2 | props2 ]; try discriminate K;
    clear K.
  - injection H as ->. now split.
  - destruct b1, b2; try discriminate H; injection H as ->; now split.
  - destruct (Number_toString_inj _ _ _ _ D1 D2 H) as [-> ->]. now split.
  - destruct (QuoteJSONString_inj _ _ _ _ H) as [-> ->]. now split.
  - rewrite !stringify_members in H. injection H as H.
    apply members_inj in H.
    + destruct H as [-> ->]. now split.
    + reflexivity.
    + discriminate.
    + intros x r. rewrite head_kind_stringify. now destruct x.
    + exact IH.
  - rewrite !stringify_properties in H. injection H as H.
    apply members_inj in H.
    + destruct H as [-> ->]. now split.
    + reflexivity.
    + discriminate.
    + apply head_kind_property.
    + revert IH. apply Forall_impl. intros [k1 x1] IHx [k2 x2] r r' Dr Dr' E.
      unfold property in E. cbn [fst snd] in *.
      rewrite !append_assoc in E.
      destruct (QuoteJSONString_inj _ _ _ _ E) as [-> E'].
      cbn in E'. injection E' as E'.
      destruct (IHx _ _ _ Dr Dr' E') as [-> ->]. now split.
Qed.

(** [JSON.stringify] tells any two values apart. *)
Lemma stringify_inj (v1 v2 : json) : stringify v1 = stringify v2 -> v1 = v2.
Proof.
  intros H.
  destruct (stringify_inj_delimited v1 v2 "" "" eq_refl eq_refl) as [E _].
  - now rewrite !append_empty_r.
  - exact E.
Qed.

Lemma stringify_eqb_iff (v1 v2 : json) :
  String.eqb (stringify v1) (stringify v2) = true <-> v1 = v2.
Proof.
  rewrite String.eqb_eq. split; [ apply stringify_inj | now intros -> ].
Qed.

End JSONFacts.

(* ================================================================== *)
(** * Deep equality and the JSON text *)
(* ================================================================== *)

Module DeepFacts.
Import JSONFacts.

Lemma lookup_distinct (k : string) (v : json) (props : list (string * json)) :
  distinct_keys (map fst props) = true -> In (k, v) props ->
  lookup k props = Some v.
Proof.
  induction props as [ | [k' v'] props IH ]; intros D H; [ destruct H | ].
  cbn [map fst distinct_keys] in D. apply andb_true_iff in D. destruct D as [Dk D].
  cbn [lookup]. destruct H as [[= -> ->] | H].
  - now rewrite String.eqb_refl.
  - destruct (String.eqb_spec k k') as [-> | _]; [ exfalso | now apply IH ].
    apply negb_true_iff in Dk.
    assert (Hin : In k' (map fst props)) by (apply in_map_iff; now exists (k', v)).
    assert (T : existsb (String.eqb k') (map fst props) = true).
    { apply existsb_exists. exists k'. split; [ exact Hin | apply String.eqb_refl ]. }
    congruence.
Qed.

(** On values whose objects have no repeated key, deep equality is
    reflexive: equal values are deeply equal. *)
Lemma deep_equal_refl (v : json) : well_formed v = true -> deep_equal v v = true.
Proof.
  induction v as [ | b | z | s | elems IH | props IH ] using json_ind; intros W;
    cbn [deep_equal].
  - reflexivity.
  - apply Bool.eqb_reflx.
  - apply Z.eqb_refl.
  - apply String.eqb_refl.
  - cbn [well_formed] in W. induction IH as [ | x elems Hx _ IHelems ]; [ reflexivity | ].
    cbn [forallb] in W. apply andb_true_iff in W. destruct W as [Wx W].
    now rewrite (Hx Wx), (IHelems W).
  - cbn [well_formed] in W. apply andb_true_iff in W. destruct W as [D W].
    rewrite Nat.eqb_refl. cbn [andb]. apply forallb_forall. intros [k x] Hin.
    cbn [fst snd]. rewrite (lookup_distinct k x props D Hin).
    rewrite Forall_forall in IH. apply (IH (k, x) Hin).
    rewrite forallb_forall in W. apply (W (k, x) Hin).
Qed.

(** Options that are not deeply equal are different values, and values
    with the same JSON text are deeply equal: the test of [addToCart]
    identifies no more than deep equality does. *)
Lemma deep_different (o1 o2 : json) :
  well_formed o1 = true -> deep_equal o1 o2 = false -> o1 <> o2.
Proof. intros W H <-. rewrite (deep_equal_refl o1 W) in H. discriminate H. Qed.

Lemma same_text_deep_equal (o1 o2 : json) :
  well_formed o1 = true -> stringify o1 = stringify o2 -> deep_equal o1 o2 = true.
Proof. intros W H. apply stringify_inj in H. subst o2. now apply deep_equal_refl. Qed.

(** The serialisation on sample values. *)
Example stringify_array :
  stringify (JArr [JNum 1; JNull; JBool true; JNum (-20); JArr []; JObj []])
  = "[1,null,true,-20,[],{}]".
Proof. reflexivity. Qed.

Example stringify_object :
  let q := String dquote "" in
  stringify (JObj [("a", JNum 1); ("b", JStr "x")])
  = "{" ++ q ++ "a" ++ q ++ ":1," ++ q ++ "b" ++ q ++ ":" ++ q ++ "x" ++ q ++ "}".
Proof. reflexivity. Qed.

Example stringify_escapes :
  let q := String dquote "" in
  stringify (JStr (String "010"%char (String "031"%char (String dquote "\"))))
  = q ++ "\n\u001f\" ++ q ++ "\\" ++ q.
Proof. reflexivity. Qed.

(** One style with its properties in two orders: the same data, two
    texts. *)
Example reordered_deep_equal :
  deep_equal watercolor watercolor_reordered = true /\
  stringify watercolor <> stringify watercolor_reordered.
Proof. split; [ reflexivity | discriminate ]. Qed.

End DeepFacts.

(* ================================================================== *)
(** * [JSON.stringify] on JavaScript values *)
(* ================================================================== *)

Module JSFacts.
Import JSONFacts.

Lemma value_ind (P : JS.value -> Prop)
    (HUndefined : P JS.VUndefined)
    (HNull : P JS.VNull)
    (HBool : forall b, P (JS.VBool b))
    (HNum : forall z, P (JS.VNum z))
    (HStr : forall s, P (JS.VStr s))
    (HArr : forall elems, Forall P elems -> P (JS.VArr elems))
    (HObj : forall props, Forall (fun kv => P (snd kv)) props -> P (JS.VObj props)) :
  forall v, P v.
Proof.
  fix IH 1.
  intros [ | | b | z | s | elems | props ].
  - exact HUndefined.
  - exact HNull.
  - apply HBool.
  - apply HNum.
  - apply HStr.
  - apply HArr. induction elems as [ | x elems IHelems ]; constructor.
    + apply IH.
    + exact IHelems.
  - apply HObj. induction props as [ | [k x] props IHprops ]; constructor.
    + apply IH.
    + exact IHprops.
Qed.

(** On a JSON value the two serialisers agree. *)
Lemma stringify_of_json (j : json) :
  JS.stringify (JS.of_json j) = Some (JSON.stringify j).
Proof.
  induction j as [ | [ | ] | z | s | elems IH | props IH ] using json_ind;
    try reflexivity.
  - cbn [JS.of_json JS.stringify JSON.stringify]. do 4 f_equal.
    rewrite map_map. apply map_ext_Forall. revert IH. apply Forall_impl.
    intros x Hx. now rewrite Hx.
  - cbn [JS.of_json JS.stringify JSON.stringify]. do 4 f_equal.
    induction IH as [ | [k x] props Hx _ IHprops ]; [ reflexivity | ].
    cbn [map flat_map fst snd] in *. rewrite Hx, IHprops. reflexivity.
Qed.

(** [JSON.stringify] prints a value as it prints the JSON value it
    reads the value as. *)
Lemma stringify_to_json (v : JS.value) :
  JS.stringify v = option_map JSON.stringify (JS.to_json v).
Proof.
  induction v as [ | | [ | ] | z | s | elems IH | props IH ] using value_ind;
    try reflexivity.
  - cbn [JS.to_json JS.stringify JSON.stringify option_map]. do 4 f_equal.
    rewrite map_map. apply map_ext_Forall. revert IH. apply Forall_impl.
    intros x Hx. rewrite Hx. now destruct (JS.to_json x).
  - cbn [JS.to_json JS.stringify JSON.stringify option_map]. do 4 f_equal.
    induction IH as [ | [k x] props Hx _ IHprops ]; [ reflexivity | ].
    cbn [map flat_map fst snd] in *. rewrite Hx, IHprops, map_app.
    now destruct (JS.to_json x).
Qed.

(** A JSON value is read as itself. *)
Lemma to_json_of_json (j : json) : JS.to_json (JS.of_json j) = Some j.
Proof.
  induction j as [ | b | z | s | elems IH | props IH ] using json_ind;
    try reflexivity.
  - cbn [JS.of_json JS.to_json]. do 2 f_equal.
    rewrite map_map. rewrite <- (map_id elems) at 2.
    apply map_ext_Forall. revert IH. apply Forall_impl.
    intros x Hx. now rewrite Hx.
  - cbn [JS.of_json JS.to_json]. do 2 f_equal.
    induction IH as [ | [k x] props Hx _ IHprops ]; [ reflexivity | ].
    cbn [map flat_map fst snd] in *. rewrite Hx, IHprops. reflexivity.
Qed.

Lemma same_text_iff (a b : option string) : JS.same_text a b = true <-> a = b.
Proof.
  destruct a as [x | ], b as [y | ]; cbn; try (split; [ discriminate | discriminate ]).
  - rewrite String.eqb_eq. split; [ now intros -> | now intros [= ->] ].
  - split; reflexivity.
Qed.

(** Two values have the same JSON text exactly when they are read as the
    same JSON value. *)
Lemma same_text_same_json (a b : JS.value) :
  JS.stringify a = JS.stringify b <-> JS.to_json a = JS.to_json b.
Proof.
  rewrite !stringify_to_json. split; [ | now intros -> ].
  destruct (JS.to_json a) as [x | ], (JS.to_json b) as [y | ]; cbn;
    try discriminate; try reflexivity.
  intros [= H]. f_equal. now apply stringify_inj.
Qed.

Lemma default_null_of_json (j : json) : JS.default_null (JS.of_json j) = JS.of_json j.
Proof. now destruct j. Qed.

Lemma same_line_of_item (p : Product.t) (o : json) (item : Item.t) :
  JS.same_line p (JS.of_json o) (JS.of_item item) = same_line p o item.
Proof.
  unfold JS.same_line, same_line. cbn [JS.of_item JS.Line.product_id JS.Line.selected_options].
  rewrite !stringify_of_json. reflexivity.
Qed.

(** The handler [addToCart] is [JS.addToCart] on JSON values: the same
    cart, the same toast. *)
Lemma addToCart_agrees (p : Product.t) (o : json) (s : AppState) :
  map JS.of_item (cart (next_state (addToCart p o) s))
  = fst (JS.addToCart p (JS.of_json o) (map JS.of_item (cart s))) /\
  effects_of (addToCart p o) s
  = [Notify (snd (JS.addToCart p (JS.of_json o) (map JS.of_item (cart s))))].
Proof.
  unfold next_state, effects_of, dispatch, addToCart, JS.addToCart.
  rewrite default_null_of_json. cbn [fst snd].
  assert (F : find (JS.same_line p (JS.of_json o)) (map JS.of_item (cart s))
              = option_map JS.of_item (find (same_line p o) (cart s))).
  { induction (cart s) as [ | x l IH ]; [ reflexivity | ].
    cbn [map find]. rewrite same_line_of_item.
    destruct (same_line p o x); [ reflexivity | exact IH ]. }
  rewrite F. destruct (find (same_line p o) (cart s)); cbn.
  - split; [ | reflexivity ]. rewrite !map_map. apply map_ext. intros x.
    rewrite same_line_of_item. now destruct (same_line p o x).
  - split; [ | reflexivity ]. now rewrite map_app.
Qed.

End JSFacts.

(* ================================================================== *)
(** * The cart operations as functions of the cart *)
(* ================================================================== *)

Module CartFacts.
Import JSONFacts.

Lemma same_line_iff (p : Product.t) (o : json) (item : Item.t) :
  same_line p o item = true <->
  Item.product_id item = Product.id p /\ Item.selected_options item = o.
Proof.
  unfold same_line. rewrite andb_true_iff, String.eqb_eq, stringify_eqb_iff.
  reflexivity.
Qed.


Lemma same_line_line_of (p : Product.t) (o : json) (q : Z) :
  same_line p o (line_of p o q) = true.
Proof. apply same_line_iff. now split. Qed.

Lemma cart_addToCart (p : Product.t) (o : json) (s : AppState) :
  cart (next_state (addToCart p o) s) =
  match find (same_line p o) (cart s) with
  | Some _ => map (bump p o) (cart s)
  | None => (cart s ++ [line_of p o 1])%list
  end.
Proof.
  unfold next_state, dispatch, addToCart.
  destruct (find (same_line p o) (cart s)); reflexivity.
Qed.

Lemma cart_removeFromCart (index : Z) (s : AppState) :
  cart (next_state (removeFromCart index) s) =
  Array_filter (fun _ i => negb (Z.of_nat i =? index)%Z) (cart s).
Proof. reflexivity. Qed.

Lemma cart_updateQuantity (index quantity : Z) (s : AppState) :
  quantity <> 0%Z ->
  cart (next_state (updateQuantity index quantity) s) =
  Array_map (fun item i => if (Z.of_nat i =? index)%Z
                           then Item.with_quantity item quantity
                           else item) (cart s).
Proof.
  intros H. unfold next_state, dispatch, updateQuantity.
  destruct (Z.eqb_spec quantity 0); [ contradiction | reflexivity ].
Qed.

Lemma updateQuantity_zero (index : Z) (s : AppState) :
  dispatch (updateQuantity index 0) s = dispatch (removeFromCart index) s.
Proof. reflexivity. Qed.

(** ** Searching and mapping over a cart without a matching line *)

Lemma find_none_iff {A} (f : A -> bool) (l : list A) :
  find f l = None <-> (forall x, In x l -> f x = false).
Proof.
  split; [ apply find_none | ].
  induction l as [ | a l IH ]; intros H; simpl; [ reflexivity | ].
  rewrite (H a (or_introl eq_refl)). apply IH. intros x Hx. apply H. now right.
Qed.

Lemma find_app_last {A} (f : A -> bool) (l : list A) (a : A) :
  (forall x, In x l -> f x = false) -> f a = true ->
  find f (l ++ [a])%list = Some a.
Proof.
  intros Hl Ha. induction l as [ | b l IH ]; simpl.
  - now rewrite Ha.
  - rewrite (Hl b (or_introl eq_refl)). apply IH. intros x Hx. apply Hl. now right.
Qed.

Lemma map_bump_others (p : Product.t) (o : json) (l : list Item.t) :
  (forall x, In x l -> same_line p o x = false) -> map (bump p o) l = l.
Proof.
  intros H. induction l as [ | b l IH ]; simpl; [ reflexivity | ].
  unfold bump at 1. rewrite (H b (or_introl eq_refl)). f_equal.
  apply IH. intros x Hx. apply H. now right.
Qed.

Lemma bump_line_of (p : Product.t) (o : json) (q : Z) :
  bump p o (line_of p o q) = line_of p o (q + 1).
Proof. unfold bump. now rewrite same_line_line_of. Qed.


(** ** Repeated additions *)

Lemma run_snoc (ops : list CartOp) (op : CartOp) (s : AppState) :
  run (ops ++ [op])%list s = next_state (perform op) (run ops s).
Proof. unfold run. now rewrite fold_left_app. Qed.

Lemma add_times_S (n : nat) (p : Product.t) (o : json) (s : AppState) :
  add_times (S n) p o s = next_state (addToCart p o) (add_times n p o s).
Proof.
  unfold add_times. cbn [repeat]. rewrite repeat_cons. apply run_snoc.
Qed.

Lemma cart_add_times (n : nat) (p : Product.t) (o : json) (s : AppState) :
  (forall x, In x (cart s) -> same_line p o x = false) ->
  cart (add_times (S n) p o s) = (cart s ++ [line_of p o (Z.of_nat (S n))])%list.
Proof.
  intros Hs. induction n as [ | n IH ]; rewrite add_times_S, cart_addToCart.
  - cbn. apply find_none_iff in Hs. now rewrite Hs.
  - rewrite IH.
    rewrite (find_app_last _ _ _ Hs (same_line_line_of p o _)).
    rewrite map_app, (map_bump_others _ _ _ Hs). cbn [map].
    rewrite bump_line_of. do 3 f_equal. lia.
Qed.


(** ** The keys of the lines *)








(** ** The total *)



End CartFacts.

(* ================================================================== *)
(** * The asynchronous handlers *)
(* ================================================================== *)

Module AppFacts.

Lemma fetchProducts_rejected (url : string) (net : Network) (s : AppState) :
  GET_products net = Rejected ->
  dispatch (fetchProducts url net) s =
  (Resolved tt,
   {| state := s;
      effects := [HttpGet (API url ++ "/products");
                  ConsoleError "Error fetching products:";
                  Notify toast_products_failed] |}).
Proof.
  intros H. unfold dispatch, fetchProducts, try_catch, bind, axios_get.
  cbn. now rewrite H.
Qed.

Lemma fetchOrders_rejected (url : string) (net : Network) (s : AppState) :
  GET_orders net = Rejected ->
  dispatch (fetchOrders url net) s =
  (Resolved tt,
   {| state := s;
      effects := [HttpGet (API url ++ "/orders");
                  ConsoleError "Error fetching orders:";
                  Notify toast_orders_failed] |}).
Proof.
  intros H. unfold dispatch, fetchOrders, try_catch, bind, axios_get.
  cbn. now rewrite H.
Qed.

Lemma handleCheckout_no_email (url : string) (net : Network) (s : AppState) :
  customerEmail s = "" ->
  dispatch (handleCheckout url net) s =
  (Resolved tt, {| state := s; effects := [Notify toast_email_required] |}).
Proof.
  intros H. unfold dispatch, handleCheckout. now rewrite H.
Qed.

Lemma handleCheckout_no_lines (url : string) (net : Network) (s : AppState) :
  customerEmail s <> "" -> cart s = [] ->
  dispatch (handleCheckout url net) s =
  (Resolved tt, {| state := s; effects := [Notify toast_cart_empty] |}).
Proof.
  intros He Hc. unfold dispatch, handleCheckout.
  apply String.eqb_neq in He. now rewrite He, Hc.
Qed.

Lemma guards_pass (s : AppState) :
  customerEmail s <> "" -> cart s <> [] ->
  String.eqb (customerEmail s) "" = false /\
  Nat.eqb (List.length (cart s)) 0 = false.
Proof.
  intros He Hc. split; [ now apply String.eqb_neq | ].
  destruct (cart s); [ contradiction | reflexivity ].
Qed.

Lemma handleCheckout_resolved (url : string) (net : Network) (s : AppState)
    (created : Order.t) :
  customerEmail s <> "" -> cart s <> [] ->
  POST_orders net (orderData_of s) = Resolved created ->
  dispatch (handleCheckout url net) s =
  (Resolved tt,
   {| state := mkAppState (products s) [] (orders s) (isAdminOpen s)
                          (isCartOpen s) false "" "" false;
      effects := [HttpPost (API url ++ "/orders") (orderData_of s);
                  Notify toast_order_placed] |}).
Proof.
  intros He Hc Hp. destruct (guards_pass s He Hc) as [Ge Gc].
  unfold dispatch, handleCheckout. rewrite Ge, Gc.
  unfold try_finally, try_catch, bind, axios_post. cbn.
  fold (orderData_of s). now rewrite Hp.
Qed.

Lemma handleCheckout_rejected (url : string) (net : Network) (s : AppState) :
  customerEmail s <> "" -> cart s <> [] ->
  POST_orders net (orderData_of s) = Rejected ->
  dispatch (handleCheckout url net) s =
  (Resolved tt,
   {| state := with_loading false s;
      effects := [HttpPost (API url ++ "/orders") (orderData_of s);
                  ConsoleError "Error creating order:";
                  Notify toast_order_failed] |}).
Proof.
  intros He Hc Hp. destruct (guards_pass s He Hc) as [Ge Gc].
  unfold dispatch, handleCheckout. rewrite Ge, Gc.
  unfold try_finally, try_catch, bind, axios_post. cbn.
  fold (orderData_of s). now rewrite Hp.
Qed.

End AppFacts.

(* ================================================================== *)
(** * The properties of the specification *)
(* ================================================================== *)

Import JSONFacts CartFacts AppFacts.

(** The reduce continued from [total]: when no step rounds, its value is
    the value of [total] plus the exact sum of the lines. *)
Lemma total_from_exact_steps (lines : list (float * float)) :
  forall total,
    exact_steps total lines = true ->
    (float_value (fold_left (fun t line => (t + fst line * snd line)%float) lines total)
     == float_value total + exact_sum lines)%Q.
Proof.
  induction lines as [ | line rest IH ]; intros total H; cbn [fold_left exact_sum].
  - ring.
  - cbn [exact_steps] in H. rewrite !andb_true_iff in H.
    destruct H as [[[[_ Hm] _] Ha] Hrest].
    apply Qeq_bool_eq in Hm. apply Qeq_bool_eq in Ha.
    rewrite (IH _ Hrest), Ha, Hm. ring.
Qed.





(** On JSON values any two different options values are kept apart:
    the calls [addToCart(p, o1)] and [addToCart(p, o2)] on an empty cart
    leave two distinct lines, each with quantity one, also when the values
    differ in the order of an object's keys only. *)
Lemma addToCart_different_json_values
    (p : Product.t) (o1 o2 : json) (s : AppState)
    (Hempty : cart s = [])
    (Hdiff : o1 <> o2) :
  cart (run [OpAdd p o1; OpAdd p o2] s) = [line_of p o1 1; line_of p o2 1] /\
  line_of p o1 1 <> line_of p o2 1 /\
  Item.quantity (line_of p o1 1) = 1%Z /\ Item.quantity (line_of p o2 1) = 1%Z.
Proof.
  split; [ | split; [ intros [= E]; exact (Hdiff E) | now split ] ].
  cbn [run fold_left perform].
  rewrite cart_addToCart, cart_addToCart, Hempty. cbn [find List.app].
  replace (same_line p o2 (line_of p o1 1)) with false; [ reflexivity | ].
  symmetry. destruct (same_line p o2 (line_of p o1 1)) eqn:E; [ | reflexivity ].
  apply same_line_iff in E. destruct E as [_ E]. destruct (Hdiff E).
Qed.

(** C2, as stated, fails: [{ style: undefined }] and the empty object
    differ by deep value, and [JSON.stringify] prints both as the empty
    object, so the second call finds the line of the first and the cart
    holds one line of quantity two. *)
Lemma C2_undefined_style_merges :
  JS.deep_equal JS.style_undefined JS.empty_object = false /\
  fst (JS.addToCart productArt JS.empty_object
         (fst (JS.addToCart productArt JS.style_undefined [])))
  = [JS.line_of productArt JS.style_undefined 2] /\
  ~ JS.two_lines_of_one
      (fst (JS.addToCart productArt JS.empty_object
              (fst (JS.addToCart productArt JS.style_undefined [])))).
Proof.
  split; [ reflexivity | split; [ reflexivity | ] ].
  intros [a [b [H _]]]. discriminate H.
Qed.

(** C2, amended.  For every product [p] and any two options values whose
    JSON texts differ ([JSON.stringify], an omitted or [undefined]
    argument being [null]), the calls [addToCart(p, o1)] and
    [addToCart(p, o2)] on an empty cart leave two distinct lines, each
    with quantity one. *)
Theorem C2_lines_by_json_text
    (p : Product.t) (o1 o2 : JS.value)
    (Hdiff : JS.stringify (JS.default_null o1) <> JS.stringify (JS.default_null o2)) :
  fst (JS.addToCart p o2 (fst (JS.addToCart p o1 [])))
  = [JS.line_of p (JS.default_null o1) 1; JS.line_of p (JS.default_null o2) 1] /\
  JS.two_lines_of_one (fst (JS.addToCart p o2 (fst (JS.addToCart p o1 [])))).
Proof.
  assert (E : fst (JS.addToCart p o2 (fst (JS.addToCart p o1 [])))
              = [JS.line_of p (JS.default_null o1) 1;
                 JS.line_of p (JS.default_null o2) 1]).
  { unfold JS.addToCart. cbn [fst find List.app].
    replace (JS.same_line p (JS.default_null o2)
               {| JS.Line.product_id := Product.id p;
                  JS.Line.product_name := Product.name p;
                  JS.Line.quantity := 1;
                  JS.Line.price := Product.price p;
                  JS.Line.selected_options := JS.default_null o1 |})
      with false; [ reflexivity | ].
    symmetry. apply not_true_is_false. unfold JS.same_line.
    cbn [JS.Line.product_id JS.Line.selected_options].
    rewrite andb_true_iff, JSFacts.same_text_iff. intros [_ T]. exact (Hdiff T). }
  split; [ exact E | ]. rewrite E.
  exists (JS.line_of p (JS.default_null o1) 1), (JS.line_of p (JS.default_null o2) 1).
  repeat split. intros [= T]. apply Hdiff. now rewrite T.
Qed.

Lemma C2_lines_by_json_text_witness :
  fst (JS.addToCart productArt (JS.VObj [("style", JS.of_json style_ink)])
         (fst (JS.addToCart productArt JS.style_undefined [])))
  = [JS.line_of productArt JS.style_undefined 1;
     JS.line_of productArt (JS.VObj [("style", JS.of_json style_ink)]) 1] /\
  JS.two_lines_of_one
    (fst (JS.addToCart productArt (JS.VObj [("style", JS.of_json style_ink)])
            (fst (JS.addToCart productArt JS.style_undefined [])))).
Proof.
  apply (C2_lines_by_json_text productArt JS.style_undefined
           (JS.VObj [("style", JS.of_json style_ink)])).
  discriminate.
Defined.

(** Why [run] fires each operation from a new render: two calls made by
    one handler of one render both read that render's cart, and the second
    [setCart] replaces the first.  The application calls [addToCart] once
    per click. *)
Example same_render_last_write_wins :
  cart (next_state (fun r => addToCart productA JNull r ;; addToCart productB JNull r)
                   initialState)
  = [line_of productB JNull 1].
Proof. reflexivity. Qed.

(** The scenario of the specification: Product A twice with no options,
    then once with [{style: "X"}]. *)
Example scenario_same_then_styled :
  cart (run [OpAdd productA JNull; OpAdd productA JNull; OpAdd productA style_X]
            initialState)
  = [line_of productA JNull 2; line_of productA style_X 1].
Proof. reflexivity. Qed.



(** C4, as stated, fails: on one line of unit price 0.1 and quantity 3
    the total is the binary64 number 0.30000000000000004, which is not
    the sum of unit price times quantity. *)
Lemma C4_rounded_total_is_not_the_sum :
  ~ (float_value (getCartTotal_binary64 [(one_tenth, 3%float)])
     == exact_sum [(one_tenth, 3%float)])%Q.
Proof. intros H. vm_compute in H. discriminate H. Qed.

(** The total also depends on the order of the lines: 0.1, 0.2, 0.3 add
    up to 0.6000000000000001, and 0.3, 0.2, 0.1 to 0.6. *)
Example total_depends_on_the_order :
  getCartTotal_binary64 [(one_tenth, 1); (two_tenths, 1); (three_tenths, 1)]%float
  <> getCartTotal_binary64 [(three_tenths, 1); (two_tenths, 1); (one_tenth, 1)]%float.
Proof. vm_compute. discriminate. Qed.

(** C4, amended.  [getCartTotal()] is computed from the current lines
    alone: starting from 0 it adds, line by line in cart order, the
    binary64 product of unit price and quantity.  Whenever none of these
    multiplications and additions rounds, it is the sum over the lines of
    unit price times quantity; with Product A (10.00) twice and Product B
    (5.50) once in the cart it is 25.5. *)
Theorem C4_total_is_the_sum_without_rounding :
  (forall lines,
     exact_steps 0%float lines = true ->
     (float_value (getCartTotal_binary64 lines) == exact_sum lines)%Q) /\
  (forall lines line,
     getCartTotal_binary64 (lines ++ [line])
     = (getCartTotal_binary64 lines + fst line * snd line)%float) /\
  getCartTotal_binary64 [] = 0%float /\
  getCartTotal_binary64 [(10, 2); (5.5, 1)]%float = 25.5%float.
Proof.
  split; [ | split; [ | split; reflexivity ] ].
  - intros lines H. rewrite (total_from_exact_steps lines 0%float H).
    change (float_value 0%float) with 0%Q. ring.
  - intros lines line. unfold getCartTotal_binary64, Array_reduce.
    now rewrite fold_left_app.
Qed.

Lemma C4_total_is_the_sum_without_rounding_witness :
  (float_value (getCartTotal_binary64 [(10, 2); (5.5, 1)]%float)
   == exact_sum [(10, 2); (5.5, 1)]%float)%Q /\
  (exact_sum [(10, 2); (5.5, 1)]%float == 25.5)%Q.
Proof.
  split.
  - apply (proj1 C4_total_is_the_sum_without_rounding [(10, 2); (5.5, 1)]%float).
    vm_compute. reflexivity.
  - vm_compute. reflexivity.
Defined.

(** The same scenario in binary64: the browser's result is exactly
    25.5. *)
Example scenario_total_binary64 :
  getCartTotal_binary64 [(10, 2); (5.5, 1)]%float = 25.5%float.
Proof. reflexivity. Qed.

(** C5.  For every state and every index, [updateQuantity(i, 0)] does
    exactly what [removeFromCart(i)] does: the same cart, the same state,
    the same effects. *)
Theorem C5_updateQuantity_zero_is_remove (index : Z) (s : AppState) :
  cart (next_state (updateQuantity index 0) s)
  = cart (next_state (removeFromCart index) s) /\
  dispatch (updateQuantity index 0) s = dispatch (removeFromCart index) s.
Proof. split; reflexivity. Qed.

(** C6.  From every state, [handleCheckout] with an empty email, whatever
    the cart, or with an empty cart, whatever the email, sends no request
    and leaves the whole state as it was. *)
Theorem C6_checkout_rejected_by_guards
    (url : string) (net : Network) (s : AppState)
    (Hguard : customerEmail s = "" \/ cart s = []) :
  next_state (handleCheckout url net) s = s /\
  network_calls (effects_of (handleCheckout url net) s) = 0.
Proof.
  unfold next_state, effects_of.
  destruct (string_dec (customerEmail s) "") as [He | He].
  - now rewrite (handleCheckout_no_email url net s He).
  - destruct Hguard as [Hg | Hg]; [ contradiction | ].
    now rewrite (handleCheckout_no_lines url net s He Hg).
Qed.

Lemma C6_checkout_rejected_by_guards_witness :
  (let s := mkAppState [] [line_of productA JNull 1] [] false false true
                       "" "note" false in
   next_state (handleCheckout "http://localhost:8001" online) s = s /\
   network_calls (effects_of (handleCheckout "http://localhost:8001" online) s) = 0) /\
  (let s := mkAppState [] [] [] false false true
                       "ann@example.com" "note" false in
   next_state (handleCheckout "http://localhost:8001" online) s = s /\
   network_calls (effects_of (handleCheckout "http://localhost:8001" online) s) = 0).
Proof.
  split.
  - apply (C6_checkout_rejected_by_guards "http://localhost:8001" online).
    left. reflexivity.
  - apply (C6_checkout_rejected_by_guards "http://localhost:8001" online).
    right. reflexivity.
Defined.

(** C7.  For every submission that passes the guards: when the POST
    resolves, the cart is empty, the email and the note are the empty
    string and the checkout view is closed; when it rejects, the cart,
    the email and the note keep their values, as does everything else
    but [loading], which is false again. *)
Theorem C7_checkout_outcome
    (url : string) (net : Network) (s : AppState)
    (Hemail : customerEmail s <> "")
    (Hcart : cart s <> []) :
  let s' := next_state (handleCheckout url net) s in
  match POST_orders net (orderData_of s) with
  | Resolved _ =>
      cart s' = [] /\ customerEmail s' = "" /\ customerNote s' = "" /\
      isCheckoutOpen s' = false
  | Rejected =>
      cart s' = cart s /\ customerEmail s' = customerEmail s /\
      customerNote s' = customerNote s /\ s' = with_loading false s
  end.
Proof.
  unfold next_state.
  destruct (POST_orders net (orderData_of s)) as [created | ] eqn:Hp.
  - rewrite (handleCheckout_resolved url net s created Hemail Hcart Hp).
    repeat split.
  - rewrite (handleCheckout_rejected url net s Hemail Hcart Hp).
    repeat split.
Qed.

Lemma C7_checkout_outcome_witness :
  (let s' := next_state (handleCheckout "http://localhost:8001" online) checkout_state in
   match POST_orders online (orderData_of checkout_state) with
   | Resolved _ =>
       cart s' = [] /\ customerEmail s' = "" /\ customerNote s' = "" /\
       isCheckoutOpen s' = false
   | Rejected =>
       cart s' = cart checkout_state /\
       customerEmail s' = customerEmail checkout_state /\
       customerNote s' = customerNote checkout_state /\
       s' = with_loading false checkout_state
   end) /\
  (let s' := next_state (handleCheckout "http://localhost:8001" offline) checkout_state in
   match POST_orders offline (orderData_of checkout_state) with
   | Resolved _ =>
       cart s' = [] /\ customerEmail s' = "" /\ customerNote s' = "" /\
       isCheckoutOpen s' = false
   | Rejected =>
       cart s' = cart checkout_state /\
       customerEmail s' = customerEmail checkout_state /\
       customerNote s' = customerNote checkout_state /\
       s' = with_loading false checkout_state
   end).
Proof.
  split.
  - apply (C7_checkout_outcome "http://localhost:8001" online checkout_state);
      discriminate.
  - apply (C7_checkout_outcome "http://localhost:8001" offline checkout_state);
      discriminate.
Defined.

(** The two scenarios of the specification, with their notifications
    and the state of the checkout view. *)
Example scenario_checkout_success :
  dispatch (handleCheckout "http://localhost:8001" online) checkout_state =
  (Resolved tt,
   {| state := mkAppState [productA; productB] [] [sample_order]
                          false false false "" "" false;
      effects := [HttpPost "http://localhost:8001/api/orders" (orderData_of checkout_state);
                  Notify toast_order_placed] |}).
Proof. reflexivity. Qed.

Example scenario_checkout_failure :
  dispatch (handleCheckout "http://localhost:8001" offline) checkout_state =
  (Resolved tt,
   {| state := checkout_state;
      effects := [HttpPost "http://localhost:8001/api/orders" (orderData_of checkout_state);
                  ConsoleError "Error creating order:";
                  Notify toast_order_failed] |}).
Proof. reflexivity. Qed.

(** C8, as stated, fails: when orders are already listed and the fetch
    is rejected, the panel still shows them. *)
Lemma C8_failed_fetch_keeps_orders :
  ~ (AdminPanel_orders
       (next_state (fetchOrders "http://localhost:8001" offline) checkout_state)
     = NoOrdersYet).
Proof. discriminate. Qed.

(** C8, amended.  When [fetchOrders] fails, the error notification
    "Failed to load orders" is produced and the orders state is left as it
    was, so the panel renders what it rendered before: the empty list
    exactly when the list was empty before the call. *)
Theorem C8_fetchOrders_failure
    (url : string) (net : Network) (s : AppState)
    (Hfail : GET_orders net = Rejected) :
  notifications (effects_of (fetchOrders url net) s) = [toast_orders_failed] /\
  orders (next_state (fetchOrders url net) s) = orders s /\
  AdminPanel_orders (next_state (fetchOrders url net) s) = AdminPanel_orders s /\
  (AdminPanel_orders (next_state (fetchOrders url net) s) = NoOrdersYet <->
   orders s = []).
Proof.
  unfold next_state, effects_of.
  rewrite (fetchOrders_rejected url net s Hfail). cbn [snd state effects].
  repeat split.
  - unfold AdminPanel_orders. destruct (orders s); [ reflexivity | discriminate ].
  - intros E. unfold AdminPanel_orders. now rewrite E.
Qed.

Lemma C8_fetchOrders_failure_witness :
  notifications (effects_of (fetchOrders "http://localhost:8001" offline) checkout_state)
  = [toast_orders_failed] /\
  orders (next_state (fetchOrders "http://localhost:8001" offline) checkout_state)
  = [sample_order] /\
  AdminPanel_orders (next_state (fetchOrders "http://localhost:8001" offline) checkout_state)
  = OrderCards [sample_order] /\
  (AdminPanel_orders (next_state (fetchOrders "http://localhost:8001" offline) checkout_state)
   = NoOrdersYet <-> [sample_order] = []).
Proof.
  exact (C8_fetchOrders_failure "http://localhost:8001" offline checkout_state eq_refl).
Defined.

(** C9.  When [fetchProducts] fails, the error notification "Failed to
    load products" is reported, the products state (the whole state) is
    what it was before the call, and the one request that failed is the
    only one sent: there is no retry. *)
Theorem C9_fetchProducts_failure
    (url : string) (net : Network) (s : AppState)
    (Hfail : GET_products net = Rejected) :
  notifications (effects_of (fetchProducts url net) s) = [toast_products_failed] /\
  products (next_state (fetchProducts url net) s) = products s /\
  next_state (fetchProducts url net) s = s /\
  network_calls (effects_of (fetchProducts url net) s) = 1.
Proof.
  unfold next_state, effects_of.
  rewrite (fetchProducts_rejected url net s Hfail).
  repeat split.
Qed.

Lemma C9_fetchProducts_failure_witness :
  notifications (effects_of (fetchProducts "http://localhost:8001" offline) checkout_state)
  = [toast_products_failed] /\
  products (next_state (fetchProducts "http://localhost:8001" offline) checkout_state)
  = products checkout_state /\
  next_state (fetchProducts "http://localhost:8001" offline) checkout_state
  = checkout_state /\
  network_calls (effects_of (fetchProducts "http://localhost:8001" offline) checkout_state)
  = 1.
Proof.
  apply (C9_fetchProducts_failure "http://localhost:8001" offline checkout_state).
  reflexivity.
Defined.

(** C10.  When the email is empty and the cart is empty too,
    [handleCheckout] emits the email-required notification and nothing
    else, so not the cart-is-empty one, and sends no request: the email
    guard comes first. *)
Theorem C10_email_guard_first
    (url : string) (net : Network) (s : AppState)
    (Hemail : customerEmail s = "")
    (Hcart : cart s = []) :
  effects_of (handleCheckout url net) s = [Notify toast_email_required] /\
  notifications (effects_of (handleCheckout url net) s) <> [toast_cart_empty] /\
  network_calls (effects_of (handleCheckout url net) s) = 0.
Proof.
  unfold effects_of. rewrite (handleCheckout_no_email url net s Hemail).
  repeat split. discriminate.
Qed.

Lemma C10_email_guard_first_witness :
  effects_of (handleCheckout "http://localhost:8001" online) initialState
  = [Notify toast_email_required] /\
  notifications (effects_of (handleCheckout "http://localhost:8001" online) initialState)
  <> [toast_cart_empty] /\
  network_calls (effects_of (handleCheckout "http://localhost:8001" online) initialState)
  = 0.
Proof.
  apply (C10_email_guard_first "http://localhost:8001" online initialState);
    reflexivity.
Defined.

(* ================================================================== *)
(** * Further properties of the handlers *)
(* ================================================================== *)

Module ArrayFacts.

Lemma filter_from_all {A} (f : A -> nat -> bool) (l : list A) :
  forall k, (forall x i, k <= i -> f x i = true) -> filter_from f k l = l.
Proof.
  induction l as [ | x l IH ]; intros k H; simpl; [ reflexivity | ].
  rewrite (H x k (le_n k)). f_equal. apply IH. intros y i Hi. apply H. lia.
Qed.

(** Filtering out one index splices the element at that index out. *)
Lemma filter_from_splice {A} (n : nat) (l : list A) :
  forall k, k <= n ->
    filter_from (fun _ i => negb (Nat.eqb i n)) k l
    = (firstn (n - k) l ++ skipn (S (n - k)) l)%list.
Proof.
  induction l as [ | x l IH ]; intros k Hk; simpl.
  - now destruct (n - k).
  - destruct (Nat.eqb_spec k n) as [-> | Hne]; simpl.
    + rewrite Nat.sub_diag. simpl. apply filter_from_all.
      intros y i Hi. apply negb_true_iff, Nat.eqb_neq. lia.
    + replace (n - k) with (S (n - S k)) by lia. simpl. f_equal.
      apply IH. lia.
Qed.

Lemma filter_from_ext {A} (f g : A -> nat -> bool) (l : list A) :
  forall k, (forall x i, f x i = g x i) -> filter_from f k l = filter_from g k l.
Proof.
  induction l as [ | x l IH ]; intros k H; simpl; [ reflexivity | ].
  rewrite H, (IH (S k) H). reflexivity.
Qed.

Lemma nth_error_map_from {A B} (g : A -> nat -> B) (l : list A) :
  forall k j, nth_error (map_from g k l) j
              = option_map (fun x => g x (k + j)) (nth_error l j).
Proof.
  induction l as [ | x l IH ]; intros k [ | j ]; simpl; try reflexivity.
  - now rewrite Nat.add_0_r.
  - rewrite IH. now replace (S k + j) with (k + S j) by lia.
Qed.

Lemma length_map_from {A B} (g : A -> nat -> B) (l : list A) :
  forall k, List.length (map_from g k l) = List.length l.
Proof. induction l as [ | x l IH ]; intros k; simpl; [ | rewrite IH ]; reflexivity. Qed.

Lemma nth_error_ext {A} (l l' : list A) :
  (forall j, nth_error l j = nth_error l' j) -> l = l'.
Proof.
  revert l'. induction l as [ | x l IH ]; intros [ | y l' ] H.
  - reflexivity.
  - discriminate (H 0).
  - discriminate (H 0).
  - injection (H 0) as ->. f_equal. apply IH. intros j. exact (H (S j)).
Qed.

Lemma Forall_filter_from {A} (P : A -> Prop) (f : A -> nat -> bool) (l : list A) :
  forall k, Forall P l -> Forall P (filter_from f k l).
Proof.
  induction l as [ | x l IH ]; intros k H; simpl; [ constructor | ].
  inversion H as [ | y ys Hx Hl ]; subst.
  destruct (f x k); [ constructor; [ exact Hx | ] | ]; now apply IH.
Qed.

Lemma Forall_map_from {A} (P : A -> Prop) (g : A -> nat -> A) (l : list A) :
  (forall x i, P x -> nth_error l i = Some x -> P (g x i)) ->
  Forall P l -> Forall P (map_from g 0 l).
Proof.
  intros Hg H. apply Forall_forall. intros y Hy.
  apply In_nth_error in Hy. destruct Hy as [j Hj].
  rewrite nth_error_map_from in Hj.
  destruct (nth_error l j) as [x | ] eqn:E; [ | discriminate ].
  injection Hj as <-. apply Hg; [ | exact E ].
  rewrite Forall_forall in H. apply H. eapply nth_error_In, E.
Qed.

End ArrayFacts.

Module CartMore.
Import JSONFacts CartFacts ArrayFacts.

Lemma find_app_middle {A} (f : A -> bool) (pre post : list A) (a : A) :
  (forall x, In x pre -> f x = false) -> f a = true ->
  find f (pre ++ a :: post)%list = Some a.
Proof.
  intros Hpre Ha. induction pre as [ | b pre IH ]; simpl.
  - now rewrite Ha.
  - rewrite (Hpre b (or_introl eq_refl)). apply IH. intros x Hx. apply Hpre. now right.
Qed.

Lemma cart_removeFromCart_splice (index : Z) (s : AppState) :
  cart (next_state (removeFromCart index) s) =
  if (index <? 0)%Z then cart s
  else (firstn (Z.to_nat index) (cart s) ++ skipn (S (Z.to_nat index)) (cart s))%list.
Proof.
  rewrite cart_removeFromCart. unfold Array_filter.
  destruct (Z.ltb_spec index 0) as [Hneg | Hpos].
  - apply filter_from_all. intros x i _. apply negb_true_iff, Z.eqb_neq. lia.
  - rewrite (filter_from_ext _ (fun _ i => negb (Nat.eqb i (Z.to_nat index)))).
    + rewrite filter_from_splice by lia. now rewrite Nat.sub_0_r.
    + intros x i. f_equal.
      destruct (Z.eqb_spec (Z.of_nat i) index), (Nat.eqb_spec i (Z.to_nat index));
        try reflexivity; lia.
Qed.

Lemma nth_error_updateQuantity (index quantity : Z) (s : AppState) (j : nat) :
  quantity <> 0%Z ->
  nth_error (cart (next_state (updateQuantity index quantity) s)) j =
  if (Z.of_nat j =? index)%Z
  then option_map (fun item => Item.with_quantity item quantity) (nth_error (cart s) j)
  else nth_error (cart s) j.
Proof.
  intros Hq. rewrite (cart_updateQuantity _ _ _ Hq). unfold Array_map.
  rewrite nth_error_map_from. cbn [Nat.add].
  destruct (Z.of_nat j =? index)%Z; [ reflexivity | ].
  now destruct (nth_error (cart s) j).
Qed.

Lemma with_quantity_same (item : Item.t) (q : Z) :
  q = Item.quantity item -> Item.with_quantity item q = item.
Proof. intros ->. now destruct item. Qed.

Lemma with_quantity_twice (item : Item.t) (q q' : Z) :
  Item.with_quantity (Item.with_quantity item q) q' = Item.with_quantity item q'.
Proof. reflexivity. Qed.

Lemma next_CartDrawer_plus (i : nat) (s : AppState) :
  next_state (CartDrawer_plus i) s =
  match nth_error (cart s) i with
  | Some item => next_state (updateQuantity (Z.of_nat i) (Item.quantity item + 1)) s
  | None => s
  end.
Proof.
  unfold next_state, dispatch, CartDrawer_plus.
  now destruct (nth_error (cart s) i).
Qed.

Lemma next_CartDrawer_minus (i : nat) (s : AppState) :
  next_state (CartDrawer_minus i) s =
  match nth_error (cart s) i with
  | Some item => next_state (updateQuantity (Z.of_nat i) (Item.quantity item - 1)) s
  | None => s
  end.
Proof.
  unfold next_state, dispatch, CartDrawer_minus.
  now destruct (nth_error (cart s) i).
Qed.

(** ** Sums *)

(** ** One click *)

(** The quantities are positive and the prices satisfy [P]. *)
Definition sound_line (P : Q -> Prop) (item : Item.t) : Prop :=
  P (Item.price item) /\ (1 <= Item.quantity item)%Z.

Definition sound_click (P : Q -> Prop) (c : Click) : Prop :=
  match c with
  | ClickAdd product _ => P (Product.price product)
  | _ => True
  end.

Lemma sound_addToCart (P : Q -> Prop) (p : Product.t) (o : json) (s : AppState) :
  P (Product.price p) ->
  Forall (sound_line P) (cart s) ->
  Forall (sound_line P) (cart (next_state (addToCart p o) s)).
Proof.
  intros Hp H. rewrite cart_addToCart.
  destruct (find (same_line p o) (cart s)).
  - apply Forall_map. revert H. apply Forall_impl. intros x [Hx Hq].
    unfold bump. destruct (same_line p o x); split; cbn; try assumption; lia.
  - apply Forall_app. split; [ exact H | ].
    constructor; [ split; [ exact Hp | cbn; lia ] | constructor ].
Qed.

Lemma sound_updateQuantity (P : Q -> Prop) (i : nat) (q : Z) (s : AppState) :
  (0 <= q)%Z ->
  Forall (sound_line P) (cart s) ->
  Forall (sound_line P) (cart (next_state (updateQuantity (Z.of_nat i) q) s)).
Proof.
  intros Hq H. destruct (Z.eq_dec q 0) as [-> | Hne].
  - change (next_state (updateQuantity (Z.of_nat i) 0) s)
      with (next_state (removeFromCart (Z.of_nat i)) s).
    rewrite cart_removeFromCart. now apply Forall_filter_from.
  - rewrite (cart_updateQuantity _ _ _ Hne). apply Forall_map_from; [ | exact H ].
    intros x j Hx _. destruct (Z.of_nat j =? Z.of_nat i)%Z; [ | exact Hx ].
    split; cbn; [ apply Hx | lia ].
Qed.

Lemma sound_on_click (P : Q -> Prop) (c : Click) (s : AppState) :
  sound_click P c ->
  Forall (sound_line P) (cart s) ->
  Forall (sound_line P) (cart (next_state (on_click c) s)).
Proof.
  intros Hc H. destruct c as [ p o | i | i ]; cbn [on_click].
  - now apply sound_addToCart.
  - unfold next_state, dispatch, CartDrawer_plus.
    destruct (nth_error (cart s) i) as [item | ] eqn:E; [ | exact H ].
    apply (sound_updateQuantity P i _ s); [ | exact H ].
    rewrite Forall_forall in H. destruct (H item (nth_error_In _ _ E)). lia.
  - unfold next_state, dispatch, CartDrawer_minus.
    destruct (nth_error (cart s) i) as [item | ] eqn:E; [ | exact H ].
    apply (sound_updateQuantity P i _ s); [ | exact H ].
    rewrite Forall_forall in H. destruct (H item (nth_error_In _ _ E)). lia.
Qed.

Lemma sound_clicks (P : Q -> Prop) (cs : list Click) :
  forall s, Forall (sound_click P) cs ->
            Forall (sound_line P) (cart s) ->
            Forall (sound_line P) (cart (clicks cs s)).
Proof.
  induction cs as [ | c cs IH ]; intros s Hcs H; [ exact H | ].
  inversion Hcs as [ | c' cs' Hc Hrest ]; subst.
  apply IH; [ exact Hrest | ]. now apply sound_on_click.
Qed.


(** ** Frames *)

Lemma perform_frame (op : CartOp) (s : AppState) :
  next_state (perform op) s =
  mkAppState (products s) (cart (next_state (perform op) s)) (orders s)
             (isAdminOpen s) (isCartOpen s) (isCheckoutOpen s)
             (customerEmail s) (customerNote s) (loading s).
Proof.
  destruct op as [ p o | index | index quantity ]; cbn [perform].
  - unfold next_state, dispatch, addToCart.
    destruct (find (same_line p o) (cart s)); reflexivity.
  - reflexivity.
  - unfold next_state, dispatch, updateQuantity.
    destruct (quantity =? 0)%Z; reflexivity.
Qed.

Lemma perform_no_request (op : CartOp) (s : AppState) :
  requests (effects_of (perform op) s) = [].
Proof.
  destruct op as [ p o | index | index quantity ]; cbn [perform].
  - unfold effects_of, dispatch, addToCart.
    destruct (find (same_line p o) (cart s)); reflexivity.
  - reflexivity.
  - unfold effects_of, dispatch, updateQuantity.
    destruct (quantity =? 0)%Z; reflexivity.
Qed.

Lemma run_frame (ops : list CartOp) :
  forall s,
    run ops s =
    mkAppState (products s) (cart (run ops s)) (orders s)
               (isAdminOpen s) (isCartOpen s) (isCheckoutOpen s)
               (customerEmail s) (customerNote s) (loading s).
Proof.
  induction ops as [ | op ops IH ]; intros s.
  - now destruct s.
  - cbn [run fold_left]. fold (run ops (next_state (perform op) s)).
    rewrite (IH (next_state (perform op) s)).
    pose proof (perform_frame op s) as F.
    f_equal; rewrite F; reflexivity.
Qed.

End CartMore.

Import JSONFacts CartFacts AppFacts ArrayFacts CartMore.

(** ** [addToCart] *)

(** X1.  The test [addToCart] applies to a line accepts it exactly when
    the line has the product's identifier and [JSON.stringify] reads the
    options of the line and the options passed as the same JSON value:
    the same once every property whose value is [undefined] is dropped
    and every [undefined] element of an array is read as [null].  So
    [{ style: undefined }] matches the empty object, and no two different
    JSON values match. *)
Theorem addToCart_test_reads_json_text :
  (forall (p : Product.t) (o : JS.value) (item : JS.Line.t),
     JS.same_line p o item = true <->
     JS.Line.product_id item = Product.id p /\
     JS.to_json (JS.Line.selected_options item) = JS.to_json o) /\
  (forall j : json, JS.to_json (JS.of_json j) = Some j) /\
  JS.to_json JS.style_undefined = JS.to_json JS.empty_object.
Proof.
  split; [ | split; [ apply JSFacts.to_json_of_json | reflexivity ] ].
  intros p o item. unfold JS.same_line.
  rewrite andb_true_iff, String.eqb_eq, JSFacts.same_text_iff,
    JSFacts.same_text_same_json.
  reflexivity.
Qed.

(** X2.  When one line of the cart matches, [addToCart] raises the
    quantity of that line by one and leaves every other line, and the
    order of the lines, as they were. *)
Theorem addToCart_bumps_only_its_line
    (p : Product.t) (o : json) (s : AppState)
    (pre post : list Item.t) (line : Item.t)
    (Hcart : cart s = (pre ++ line :: post)%list)
    (Hline : same_line p o line = true)
    (Hothers : forall x, In x (pre ++ post)%list -> same_line p o x = false) :
  cart (next_state (addToCart p o) s)
  = (pre ++ Item.with_quantity line (Item.quantity line + 1) :: post)%list.
Proof.
  assert (Hpre : forall x, In x pre -> same_line p o x = false)
    by (intros x Hx; apply Hothers, in_or_app; now left).
  assert (Hpost : forall x, In x post -> same_line p o x = false)
    by (intros x Hx; apply Hothers, in_or_app; now right).
  rewrite cart_addToCart, Hcart, (find_app_middle _ _ _ _ Hpre Hline).
  rewrite map_app. cbn [map].
  rewrite (map_bump_others _ _ _ Hpre), (map_bump_others _ _ _ Hpost).
  unfold bump. now rewrite Hline.
Qed.

Lemma addToCart_bumps_only_its_line_witness :
  cart (next_state (addToCart productB JNull)
          (mkAppState [] [line_of productA JNull 2; line_of productB JNull 1;
                          line_of productA style_X 4]
                      [] false false false "" "" false))
  = [line_of productA JNull 2; line_of productB JNull 2; line_of productA style_X 4].
Proof.
  apply (addToCart_bumps_only_its_line productB JNull
           (mkAppState [] [line_of productA JNull 2; line_of productB JNull 1;
                           line_of productA style_X 4]
                       [] false false false "" "" false)
           [line_of productA JNull 2] [line_of productA style_X 4]
           (line_of productB JNull 1)).
  - reflexivity.
  - reflexivity.
  - intros x [<- | [<- | []]]; reflexivity.
Defined.

(** X3.  A line keeps the name and the unit price of the product that
    created it: adding a product with the same identifier and options
    again, under another name or at another price, raises the quantity
    of the line and changes nothing else in it. *)
Theorem addToCart_keeps_captured_price
    (p p' : Product.t) (o : json) (s : AppState)
    (Hid : Product.id p' = Product.id p)
    (Hfresh : forall x, In x (cart s) -> same_line p o x = false) :
  cart (run [OpAdd p o; OpAdd p' o] s) = (cart s ++ [line_of p o 2])%list.
Proof.
  assert (Hsame : same_line p' o = same_line p o)
    by (unfold same_line; now rewrite Hid).
  cbn [run fold_left perform].
  rewrite cart_addToCart, cart_addToCart.
  rewrite (proj2 (find_none_iff _ _) Hfresh).
  unfold bump. rewrite Hsame. fold (bump p o).
  rewrite (find_app_last _ _ _ Hfresh (same_line_line_of p o 1)).
  rewrite map_app, (map_bump_others _ _ _ Hfresh). cbn [map].
  now rewrite bump_line_of.
Qed.

Lemma addToCart_keeps_captured_price_witness :
  cart (run [OpAdd productA JNull;
             OpAdd (Product.mk "A" "Product A, renamed" "" 99%Q "design" "" None) JNull]
            initialState)
  = [line_of productA JNull 2].
Proof.
  apply (addToCart_keeps_captured_price productA
           (Product.mk "A" "Product A, renamed" "" 99%Q "design" "" None)
           JNull initialState).
  - reflexivity.
  - intros x [].
Defined.

(** X4.  The cart operations change the cart and nothing else: after any
    sequence of them the products, the orders, the three dialogs, the
    form and [loading] are what they were; and none of them sends a
    request. *)
Theorem cart_operations_touch_only_the_cart :
  (forall (ops : list CartOp) (s : AppState),
     run ops s =
     mkAppState (products s) (cart (run ops s)) (orders s)
                (isAdminOpen s) (isCartOpen s) (isCheckoutOpen s)
                (customerEmail s) (customerNote s) (loading s)) /\
  (forall (op : CartOp) (s : AppState),
     requests (effects_of (perform op) s) = []).
Proof. split; [ apply run_frame | apply perform_no_request ]. Qed.

(** ** [removeFromCart] and [updateQuantity] *)

(** X5.  [removeFromCart(index)] takes the line at [index] out and keeps
    the others in order; for a negative index or one at or past the end
    it leaves the cart as it is. *)
Theorem removeFromCart_splices (index : Z) (s : AppState) :
  cart (next_state (removeFromCart index) s)
  = (if (index <? 0)%Z then cart s
     else (firstn (Z.to_nat index) (cart s)
           ++ skipn (S (Z.to_nat index)) (cart s))%list) /\
  ((index < 0 \/ Z.of_nat (List.length (cart s)) <= index)%Z ->
   cart (next_state (removeFromCart index) s) = cart s) /\
  ((0 <= index < Z.of_nat (List.length (cart s)))%Z ->
   S (List.length (cart (next_state (removeFromCart index) s)))
   = List.length (cart s)).
Proof.
  rewrite cart_removeFromCart_splice. split; [ reflexivity | split ].
  - intros [Hneg | Hbig].
    + destruct (Z.ltb_spec index 0); [ reflexivity | lia ].
    + destruct (Z.ltb_spec index 0); [ reflexivity | ].
      rewrite firstn_all2, skipn_all2 by lia. apply app_nil_r.
  - intros Hin. destruct (Z.ltb_spec index 0); [ lia | ].
    rewrite length_app, length_firstn, length_skipn. lia.
Qed.

(** X6.  [updateQuantity(index, quantity)] with a quantity other than
    zero stores that quantity in the line at [index], whatever its sign,
    and changes no other line and no other field of the line; with an
    index outside the cart it changes nothing. *)
Theorem updateQuantity_sets_one_line
    (index quantity : Z) (s : AppState)
    (Hq : quantity <> 0%Z) :
  (forall j,
     nth_error (cart (next_state (updateQuantity index quantity) s)) j =
     if (Z.of_nat j =? index)%Z
     then option_map (fun item => Item.with_quantity item quantity)
                     (nth_error (cart s) j)
     else nth_error (cart s) j) /\
  List.length (cart (next_state (updateQuantity index quantity) s))
  = List.length (cart s) /\
  ((index < 0 \/ Z.of_nat (List.length (cart s)) <= index)%Z ->
   cart (next_state (updateQuantity index quantity) s) = cart s).
Proof.
  split; [ intros j; now apply nth_error_updateQuantity | split ].
  - rewrite (cart_updateQuantity _ _ _ Hq). apply length_map_from.
  - intros Hout. apply nth_error_ext. intros j.
    rewrite (nth_error_updateQuantity _ _ _ _ Hq).
    destruct (Z.eqb_spec (Z.of_nat j) index) as [E | _]; [ | reflexivity ].
    destruct (nth_error (cart s) j) eqn:N; [ exfalso | reflexivity ].
    assert (j < List.length (cart s)) by (apply nth_error_Some; congruence). lia.
Qed.

Lemma updateQuantity_sets_one_line_witness :
  (forall j,
     nth_error (cart (next_state (updateQuantity 1 (-3)) checkout_state)) j =
     if (Z.of_nat j =? 1)%Z
     then option_map (fun item => Item.with_quantity item (-3))
                     (nth_error (cart checkout_state) j)
     else nth_error (cart checkout_state) j) /\
  List.length (cart (next_state (updateQuantity 1 (-3)) checkout_state))
  = List.length (cart checkout_state) /\
  ((1 < 0 \/ Z.of_nat (List.length (cart checkout_state)) <= 1)%Z ->
   cart (next_state (updateQuantity 1 (-3)) checkout_state) = cart checkout_state).
Proof.
  apply (updateQuantity_sets_one_line 1 (-3) checkout_state). discriminate.
Defined.

(** ** The buttons of the drawer *)

(** X7.  Whatever a visitor does (add products, press [+] or [-] on the
    lines of the drawer), starting from the empty cart, every line of the
    cart has a quantity of at least one: [-] on a line of quantity one
    removes the line. *)
Theorem quantities_stay_positive (cs : list Click) :
  Forall (fun item => (1 <= Item.quantity item)%Z) (cart (clicks cs initialState)).
Proof.
  assert (H : Forall (sound_line (fun _ => True)) (cart (clicks cs initialState))).
  { apply sound_clicks; [ | constructor ].
    apply Forall_forall. intros [ p o | i | i ] _; exact I. }
  revert H. apply Forall_impl. intros item [_ Hq]. exact Hq.
Qed.

(** X8.  On a cart whose quantities are all at least one, pressing [+]
    and then [-] on the same line gives the cart back. *)
Theorem plus_then_minus_restores
    (i : nat) (s : AppState)
    (Hpos : Forall (fun item => (1 <= Item.quantity item)%Z) (cart s)) :
  cart (next_state (CartDrawer_minus i) (next_state (CartDrawer_plus i) s)) = cart s.
Proof.
  rewrite (next_CartDrawer_plus i s).
  destruct (nth_error (cart s) i) as [item | ] eqn:E.
  - assert (Hq : (1 <= Item.quantity item)%Z).
    { rewrite Forall_forall in Hpos. apply Hpos. eapply nth_error_In, E. }
    set (s1 := next_state (updateQuantity (Z.of_nat i) (Item.quantity item + 1)) s).
    assert (N1 : forall j, nth_error (cart s1) j =
                 if (Z.of_nat j =? Z.of_nat i)%Z
                 then option_map (fun it => Item.with_quantity it (Item.quantity item + 1))
                                 (nth_error (cart s) j)
                 else nth_error (cart s) j).
    { intros j. apply nth_error_updateQuantity. lia. }
    rewrite (next_CartDrawer_minus i s1), (N1 i), Z.eqb_refl, E.
    cbn [option_map Item.with_quantity Item.quantity].
    apply nth_error_ext. intros j.
    rewrite nth_error_updateQuantity by lia. rewrite (N1 j).
    destruct (Z.eqb_spec (Z.of_nat j) (Z.of_nat i)) as [Eji | _]; [ | reflexivity ].
    apply Nat2Z.inj in Eji. subst j. rewrite E. cbn [option_map]. f_equal.
    rewrite with_quantity_twice. apply with_quantity_same. lia.
  - now rewrite (next_CartDrawer_minus i s), E.
Qed.

Lemma plus_then_minus_restores_witness :
  cart (next_state (CartDrawer_minus 1)
          (next_state (CartDrawer_plus 1) checkout_state))
  = cart checkout_state.
Proof.
  apply (plus_then_minus_restores 1 checkout_state).
  repeat constructor; discriminate.
Defined.

(** X9.  Pressing [-] on a line of quantity one takes that line out of
    the cart and keeps the other lines in order. *)
Theorem minus_at_one_removes_the_line
    (i : nat) (s : AppState) (item : Item.t)
    (Hline : nth_error (cart s) i = Some item)
    (Hone : Item.quantity item = 1%Z) :
  cart (next_state (CartDrawer_minus i) s)
  = (firstn i (cart s) ++ skipn (S i) (cart s))%list.
Proof.
  rewrite (next_CartDrawer_minus i s), Hline, Hone.
  change (next_state (updateQuantity (Z.of_nat i) (1 - 1)) s)
    with (next_state (removeFromCart (Z.of_nat i)) s).
  rewrite cart_removeFromCart_splice.
  destruct (Z.ltb_spec (Z.of_nat i) 0); [ lia | ].
  now rewrite Nat2Z.id.
Qed.

Lemma minus_at_one_removes_the_line_witness :
  cart (next_state (CartDrawer_minus 1) checkout_state)
  = (firstn 1 (cart checkout_state) ++ skipn 2 (cart checkout_state))%list.
Proof.
  apply (minus_at_one_removes_the_line 1 checkout_state (line_of productB JNull 1));
    reflexivity.
Defined.

(** ** [getCartTotal] along the operations *)



(** ** The requests *)

(** X13.  [fetchProducts] sends one GET to the products endpoint and
    nothing else.  When it resolves, the products are exactly the
    response (the list before is dropped, nothing is merged) and nothing
    is notified; in both cases the cart, the orders, the dialogs and the
    form are untouched. *)
Theorem fetchProducts_replaces_only_products
    (url : string) (net : Network) (s : AppState) :
  next_state (fetchProducts url net) s =
  mkAppState (match GET_products net with
              | Resolved data => data
              | Rejected => products s
              end)
             (cart s) (orders s) (isAdminOpen s) (isCartOpen s)
             (isCheckoutOpen s) (customerEmail s) (customerNote s) (loading s) /\
  requests (effects_of (fetchProducts url net) s) = [HttpGet (API url ++ "/products")] /\
  notifications (effects_of (fetchProducts url net) s) =
  match GET_products net with
  | Resolved _ => []
  | Rejected => [toast_products_failed]
  end.
Proof.
  unfold next_state, effects_of, dispatch, fetchProducts, try_catch, bind, axios_get.
  destruct (GET_products net); destruct s; repeat split.
Qed.

(** X14.  The admin dialog fetches the orders when it opens and only
    then: closing it sends no request and changes only [isAdminOpen];
    opening it sends one GET to the orders endpoint, and a response
    replaces the orders list. *)
Theorem AdminPanel_onOpenChange_fetches_on_open
    (url : string) (net : Network) (open : bool) (s : AppState) :
  requests (effects_of (AdminPanel_onOpenChange url net open) s) =
  (if open then [HttpGet (API url ++ "/orders")] else []) /\
  next_state (AdminPanel_onOpenChange url net open) s =
  mkAppState (products s) (cart s)
             (if open then match GET_orders net with
                           | Resolved data => data
                           | Rejected => orders s
                           end
              else orders s)
             open (isCartOpen s) (isCheckoutOpen s)
             (customerEmail s) (customerNote s) (loading s).
Proof.
  unfold next_state, effects_of, dispatch, AdminPanel_onOpenChange, fetchOrders,
    try_catch, bind, axios_get.
  destruct open; [ destruct (GET_orders net) | ]; split; reflexivity.
Qed.

(** X15.  [handleCheckout] never throws and sends at most one request:
    none when a guard stops it, otherwise one POST to the orders endpoint
    whose body is the email, the note and the cart of the state it was
    called in.  It never changes the products, the orders, the admin
    dialog or the cart drawer, and it never leaves [loading] set. *)
Theorem handleCheckout_sends_at_most_one_order
    (url : string) (net : Network) (s : AppState) :
  let s' := next_state (handleCheckout url net) s in
  fst (dispatch (handleCheckout url net) s) = Resolved tt /\
  requests (effects_of (handleCheckout url net) s) =
  (if guards_pass_b s
   then [HttpPost (API url ++ "/orders") (orderData_of s)]
   else []) /\
  products s' = products s /\ orders s' = orders s /\
  isAdminOpen s' = isAdminOpen s /\ isCartOpen s' = isCartOpen s /\
  (loading s = false -> loading s' = false).
Proof.
  unfold next_state, effects_of, dispatch, handleCheckout, guards_pass_b.
  destruct (String.eqb (customerEmail s) ""); [ cbn; tauto | ].
  destruct (Nat.eqb (List.length (cart s)) 0); [ cbn; tauto | ].
  unfold try_finally, try_catch, bind, axios_post. cbn.
  fold (orderData_of s).
  destruct (POST_orders net (orderData_of s)); cbn; tauto.
Qed.

(** X16.  After a failed submission the same click submits the same
    order again: the second POST carries the body of the first. *)
Theorem retry_after_failure_resends_the_order
    (url : string) (net1 net2 : Network) (s : AppState)
    (Hemail : customerEmail s <> "")
    (Hcart : cart s <> [])
    (Hfail : POST_orders net1 (orderData_of s) = Rejected) :
  requests (effects_of (handleCheckout url net2)
                       (next_state (handleCheckout url net1) s))
  = [HttpPost (API url ++ "/orders") (orderData_of s)].
Proof.
  unfold next_state at 1.
  rewrite (handleCheckout_rejected url net1 s Hemail Hcart Hfail).
  cbn [snd state].
  destruct (guards_pass (with_loading false s) Hemail Hcart) as [Ge Gc].
  unfold effects_of, dispatch, handleCheckout. rewrite Ge, Gc.
  unfold try_finally, try_catch, bind, axios_post. cbn.
  fold (orderData_of s).
  destruct (POST_orders net2 (orderData_of s)); reflexivity.
Qed.

Lemma retry_after_failure_resends_the_order_witness :
  requests (effects_of (handleCheckout "http://localhost:8001" online)
                       (next_state (handleCheckout "http://localhost:8001" offline)
                                   checkout_state))
  = [HttpPost (API "http://localhost:8001" ++ "/orders") (orderData_of checkout_state)].
Proof.
  apply (retry_after_failure_resends_the_order "http://localhost:8001"
           offline online checkout_state).
  - discriminate.
  - discriminate.
  - reflexivity.
Defined.

(** X17.  An order that went through cannot be sent twice by clicking
    again: the form was cleared, so the next [handleCheckout] stops at the
    email guard and sends nothing. *)
Theorem no_resubmission_after_success
    (url : string) (net1 net2 : Network) (s : AppState) (created : Order.t)
    (Hemail : customerEmail s <> "")
    (Hcart : cart s <> [])
    (Hok : POST_orders net1 (orderData_of s) = Resolved created) :
  effects_of (handleCheckout url net2) (next_state (handleCheckout url net1) s)
  = [Notify toast_email_required].
Proof.
  unfold next_state at 1.
  rewrite (handleCheckout_resolved url net1 s created Hemail Hcart Hok).
  reflexivity.
Qed.

Lemma no_resubmission_after_success_witness :
  effects_of (handleCheckout "http://localhost:8001" online)
             (next_state (handleCheckout "http://localhost:8001" online) checkout_state)
  = [Notify toast_email_required].
Proof.
  apply (no_resubmission_after_success "http://localhost:8001" online online
           checkout_state
           (Order.mk "order-0002" "ann@example.com" "gift"
                     [line_of productA JNull 2; line_of productB JNull 1]
                     0%Q "2025-01-02T00:00:00Z")).
  - discriminate.
  - discriminate.
  - reflexivity.
Defined.

(** ** [ProductCard] *)

Module CardFacts.
Import JSONFacts CartFacts.

(** The options a card passes depend on the product and the select
    only; the handler throws or is [addToCart] with them. *)
Lemma handleAddToCart_cases (p : Product.t) (sel : string) :
  (forall r, handleAddToCart p sel r = throw) \/
  (exists o, forall r, handleAddToCart p sel r = addToCart p o r).
Proof.
  unfold handleAddToCart.
  destruct (String.eqb (Product.category p) "art" && negb (String.eqb sel "")).
  - destruct (chosen_style p sel) as [[st | ] | ].
    + right. now exists (JObj [("style", st)]).
    + right. now exists (JObj []).
    + now left.
  - right. destruct (Product.options p) as [o | ].
    + destruct (truthy o); [ now exists o | now exists JNull ].
    + now exists JNull.
Qed.

Lemma find_style_spec (sel : string) (styles : list json) :
  match find_style sel styles with
  | Resolved (Some st) =>
      exists pre post,
        styles = (pre ++ st :: post)%list /\
        member "name" st = Some (JStr sel) /\
        Forall (fun x => names_style sel x = Resolved false) pre
  | Resolved None =>
      Forall (fun x => names_style sel x = Resolved false) styles
  | Rejected =>
      exists pre post,
        styles = (pre ++ JNull :: post)%list /\
        Forall (fun x => names_style sel x = Resolved false) pre
  end.
Proof.
  induction styles as [ | x styles IH ]; cbn [find_style]; [ constructor | ].
  destruct (names_style sel x) as [[ | ] | ] eqn:E.
  - exists [], styles. split; [ reflexivity | split; [ | constructor ] ].
    unfold names_style in E. destruct x; try discriminate E;
      cbn [member] in *;
      match type of E with
      | match ?m with _ => _ end = _ =>
          destruct m as [[ | | | n | | ] | ]; try discriminate E
      end;
      injection E as E; apply String.eqb_eq in E; now subst.
  - destruct (find_style sel styles) as [[st | ] | ].
    + destruct IH as [pre [post [-> [Hn Hpre]]]].
      exists (x :: pre), post. repeat split; [ exact Hn | now constructor ].
    + now constructor.
    + destruct IH as [pre [post [-> Hpre]]].
      exists (x :: pre), post. split; [ reflexivity | now constructor ].
  - exists [], styles. split; [ | constructor ].
    unfold names_style in E. destruct x; try discriminate E; try reflexivity;
      cbn [member] in E;
      match type of E with
      | match ?m with _ => _ end = _ =>
          destruct m as [[ | | | n | | ] | ]; discriminate E
      end.
Qed.

Lemma chosen_style_name (p : Product.t) (sel : string) (st : json) :
  chosen_style p sel = Resolved (Some st) -> member "name" st = Some (JStr sel).
Proof.
  unfold chosen_style.
  destruct (optional_member "styles" (Product.options p)) as [[ | | | | styles | ] | ];
    try discriminate.
  intros H. pose proof (find_style_spec sel styles) as S. rewrite H in S.
  destruct S as [pre [post [_ [Hn _]]]]. exact Hn.
Qed.

End CardFacts.

Import CardFacts.

(** X18.  [find] over the styles of a product returns the first style
    whose [name] is the chosen one, [undefined] when no style has that
    name, and throws exactly when a [null] entry comes before any
    match. *)
Theorem find_style_returns_first_match (sel : string) (styles : list json) :
  match find_style sel styles with
  | Resolved (Some st) =>
      exists pre post,
        styles = (pre ++ st :: post)%list /\
        member "name" st = Some (JStr sel) /\
        Forall (fun x => names_style sel x = Resolved false) pre
  | Resolved None =>
      Forall (fun x => names_style sel x = Resolved false) styles
  | Rejected =>
      exists pre post,
        styles = (pre ++ JNull :: post)%list /\
        Forall (fun x => names_style sel x = Resolved false) pre
  end.
Proof. apply find_style_spec. Qed.

(** X19.  Pressing the button of a card twice with the same selection,
    on a cart with no line of that product, leaves one new line with
    quantity two, whenever the handler does not throw: the card passes
    the same options value both times. *)
Theorem card_button_twice_merges
    (p : Product.t) (sel : string) (s : AppState)
    (Hfresh : forall x, In x (cart s) -> Item.product_id x <> Product.id p)
    (Hruns : fst (dispatch (handleAddToCart p sel) s) = Resolved tt) :
  exists o,
    cart (next_state (handleAddToCart p sel) (next_state (handleAddToCart p sel) s))
    = (cart s ++ [line_of p o 2])%list.
Proof.
  destruct (handleAddToCart_cases p sel) as [T | [o Ho]].
  - unfold dispatch in Hruns. rewrite T in Hruns. discriminate Hruns.
  - exists o. unfold next_state, dispatch. rewrite !Ho.
    change (cart (add_times 2 p o s) = (cart s ++ [line_of p o 2])%list).
    apply (cart_add_times 1 p o s).
    intros x Hx. destruct (same_line p o x) eqn:E; [ | reflexivity ].
    apply same_line_iff in E. destruct (Hfresh x Hx (proj1 E)).
Qed.

Lemma card_button_twice_merges_witness :
  exists o,
    cart (next_state (handleAddToCart productArt "Oil")
            (next_state (handleAddToCart productArt "Oil") checkout_state))
    = (cart checkout_state ++ [line_of productArt o 2])%list.
Proof.
  apply (card_button_twice_merges productArt "Oil" checkout_state).
  - intros x [<- | [<- | []]]; discriminate.
  - reflexivity.
Defined.

(** X20.  Choosing two styles of different names on the card of an art
    product, each found among the product's styles, leaves two lines of
    quantity one on an empty cart, one per style, each holding the style
    object found. *)
Theorem two_styles_two_lines
    (p : Product.t) (sel1 sel2 : string) (st1 st2 : json) (s : AppState)
    (Hart : Product.category p = "art")
    (Hsel1 : sel1 <> "") (Hsel2 : sel2 <> "")
    (Hst1 : chosen_style p sel1 = Resolved (Some st1))
    (Hst2 : chosen_style p sel2 = Resolved (Some st2))
    (Hdiff : sel1 <> sel2)
    (Hempty : cart s = []) :
  cart (next_state (handleAddToCart p sel2) (next_state (handleAddToCart p sel1) s))
  = [line_of p (JObj [("style", st1)]) 1; line_of p (JObj [("style", st2)]) 1].
Proof.
  assert (H1 : forall r, handleAddToCart p sel1 r = addToCart p (JObj [("style", st1)]) r).
  { intros r. unfold handleAddToCart.
    rewrite Hart, Hst1. apply String.eqb_neq in Hsel1. now rewrite Hsel1. }
  assert (H2 : forall r, handleAddToCart p sel2 r = addToCart p (JObj [("style", st2)]) r).
  { intros r. unfold handleAddToCart.
    rewrite Hart, Hst2. apply String.eqb_neq in Hsel2. now rewrite Hsel2. }
  unfold next_state, dispatch. rewrite H1, H2.
  fold (dispatch (addToCart p (JObj [("style", st1)])) s).
  fold (next_state (addToCart p (JObj [("style", st1)])) s).
  set (s1 := next_state (addToCart p (JObj [("style", st1)])) s).
  fold (dispatch (addToCart p (JObj [("style", st2)])) s1).
  fold (next_state (addToCart p (JObj [("style", st2)])) s1).
  subst s1. rewrite cart_addToCart, cart_addToCart, Hempty. cbn [find List.app].
  replace (same_line p (JObj [("style", st2)]) (line_of p (JObj [("style", st1)]) 1))
    with false; [ reflexivity | ].
  symmetry. apply not_true_is_false. intros E. apply same_line_iff in E.
  destruct E as [_ E]. cbn in E. injection E as E.
  apply chosen_style_name in Hst1. apply chosen_style_name in Hst2.
  rewrite E in Hst1. rewrite Hst1 in Hst2. injection Hst2 as Hs. exact (Hdiff Hs).
Qed.

Lemma two_styles_two_lines_witness :
  cart (next_state (handleAddToCart productArt "Oil")
          (next_state (handleAddToCart productArt "Ink") initialState))
  = [line_of productArt (JObj [("style", style_ink)]) 1;
     line_of productArt (JObj [("style", style_oil)]) 1].
Proof.
  apply (two_styles_two_lines productArt "Ink" "Oil" style_ink style_oil initialState);
    try reflexivity; discriminate.
Defined.

(** ** The admin panel *)

Module SliceFacts.

Lemma substring_all (s : string) :
  forall m, String.length s <= m -> substring 0 m s = s.
Proof.
  induction s as [ | c s IH ]; intros [ | m ] H; cbn in *; try reflexivity; try lia.
  f_equal. apply IH. lia.
Qed.

Lemma substring_tail (s : string) :
  forall k m, k <= String.length s -> String.length s - k <= m ->
    exists prefix,
      s = prefix ++ substring k m s /\
      String.length (substring k m s) = String.length s - k.
Proof.
  induction s as [ | c s IH ]; intros k m Hk Hm.
  - exists "". destruct k, m; cbn; split; reflexivity.
  - destruct k as [ | k ].
    + exists "". rewrite substring_all by (cbn in *; lia). split; [ reflexivity | ].
      cbn. lia.
    + cbn in Hk, Hm. destruct (IH k m) as [prefix [E L]]; [ lia | lia | ].
      exists (String c prefix). cbn [substring String.length append].
      split; [ now rewrite <- E | exact L ].
Qed.

End SliceFacts.

(** X21.  The identifier shown in the title of an order card is the end
    of the order's identifier: its last eight code units, or all of it
    when it has fewer. *)
Theorem order_title_is_the_end_of_the_id (order : Order.t) :
  exists prefix,
    Order.id order = prefix ++ order_title_id order /\
    String.length (order_title_id order) = Nat.min 8 (String.length (Order.id order)).
Proof.
  unfold order_title_id, slice_last.
  destruct (SliceFacts.substring_tail (Order.id order)
              (String.length (Order.id order) - 8) 8) as [prefix [E L]];
    [ lia | lia | ].
  exists prefix. split; [ exact E | rewrite L; lia ].
Qed.
